(** * gpu_monitor.py: the sampler, the renderer and the loop driver

    A shallow embedding of [src/gpu_monitor.py] and the properties of its
    three parts: [get_gpu_data] (the sampler), [generate_table] (the
    renderer) and the [__main__] block (the loop driver).

    The two libraries the script drives, [pynvml] and [rich], are not part
    of the repository.  [pynvml] is an oracle: a record with the outcome of
    every query.  [rich]'s objects are records that keep the arguments the
    script passes to their constructors. *)

From Stdlib Require Import ZArith NArith List String Ascii Bool Lia.
From Stdlib Require Import SpecFloat DecimalString.
Import ListNotations.

Local Open Scope string_scope.
Local Open Scope Z_scope.

(** ** The Python runtime the script relies on *)

Module Py.

(** Error codes of the subsystem that the script tells apart (only
    [NVML_ERROR_NOT_SUPPORTED] is treated differently from the rest). *)
Variant nvml_return :=
  | NVML_ERROR_UNINITIALIZED
  | NVML_ERROR_NOT_SUPPORTED
  | NVML_ERROR_DRIVER_NOT_LOADED
  | NVML_ERROR_LIBRARY_NOT_FOUND
  | NVML_ERROR_GPU_IS_LOST
  | NVML_ERROR_UNKNOWN.

(** Exceptions.  [NVMLError c msg] is [pynvml.NVMLError] with its code
    and the text [str(e)] gives; [pynvml.NVMLError_NotSupported] is the
    subclass with code [NVML_ERROR_NOT_SUPPORTED].  [KeyboardInterrupt] is
    not a subclass of [Exception]; all the others are. *)
Variant exn :=
  | NVMLError (code : nvml_return) (msg : string)
  | ZeroDivisionError (msg : string)
  | OtherException (msg : string)
  | KeyboardInterrupt.

Definition is_NVMLError (e : exn) : bool :=
  match e with NVMLError _ _ => true | _ => false end.

Definition is_NVMLError_NotSupported (e : exn) : bool :=
  match e with NVMLError NVML_ERROR_NOT_SUPPORTED _ => true | _ => false end.



(** [str(e)] *)
Definition str_exn (e : exn) : string :=
  match e with
  | NVMLError _ msg => msg
  | ZeroDivisionError msg => msg
  | OtherException msg => msg
  | KeyboardInterrupt => ""
  end.

(** A Python expression either evaluates to a value or raises. *)
Variant outcome (A : Type) :=
  | Return (a : A)
  | Raise (e : exn).
Arguments Return {A} a.
Arguments Raise {A} e.

(** *** Numbers: [int] is [Z], [float] is IEEE 754 binary64 *)

Definition prec : Z := 53.
Definition emax : Z := 1024.

Definition float := spec_float.

(** [float(n)] for an [int]: round to nearest, ties to even.  (CPython
    raises [OverflowError] where this gives an infinity; the integers the
    script converts are C unsigned values, far below that.) *)
Definition float_of_int (n : Z) : float := binary_normalize prec emax n 0 false.

Definition fzero : float := S754_zero false.

Definition is_zero (x : float) : bool :=
  match x with S754_zero _ => true | _ => false end.

Definition fmul (x y : float) : float := SFmul prec emax x y.
Definition flt (x y : float) : bool := SFltb x y.

(** [x / y] on floats: Python raises where IEEE would give inf or nan. *)
Definition float_truediv (x y : float) : outcome float :=
  if is_zero y then Raise (ZeroDivisionError "float division by zero")
  else Return (SFdiv prec emax x y).

(** [a / b] on ints (true division).  CPython rounds the exact quotient
    once; converting both operands first gives the same float when both
    are below 2^53 or when the divisor is a power of two. *)
Definition int_truediv (a b : Z) : outcome float :=
  if b =? 0 then Raise (ZeroDivisionError "division by zero")
  else Return (SFdiv prec emax (float_of_int a) (float_of_int b)).

(** A Python number: the percentages of the sampler are a [float] on one
    branch of the conditional expression and the [int] literal [0] on the
    other. *)
Variant number :=
  | PyInt (n : Z)
  | PyFloat (x : float).

Definition to_float (v : number) : float :=
  match v with PyInt n => float_of_int n | PyFloat x => x end.

Definition num_lt (v w : number) : bool := flt (to_float v) (to_float w).

(** *** Text *)

(** [str(n)] for an [int] *)
Definition str_int (n : Z) : string := NilZero.string_of_int (Z.to_int n).

Fixpoint zeros (k : nat) : string :=
  match k with O => "" | S k' => String "0" (zeros k') end.

(** Left-pad with zeros to [k] characters. *)
Definition zfill (k : nat) (s : string) : string :=
  zeros (k - String.length s) ++ s.

Definition round_half_even (num den : Z) : Z :=
  let q := num / den in
  match (2 * (num mod den)) ?= den with
  | Lt => q
  | Gt => q + 1
  | Eq => if Z.even q then q else q + 1
  end.

(** The integer nearest to [m * 2^e * 10^k], ties to even. *)
Definition scaled (k : nat) (m : positive) (e : Z) : Z :=
  if 0 <=? e then Zpos m * 2 ^ e * 10 ^ Z.of_nat k
  else round_half_even (Zpos m * 10 ^ Z.of_nat k) (2 ^ (- e)).

Definition fixed_digits (k : nat) (n : Z) : string :=
  let p := 10 ^ Z.of_nat k in
  str_int (n / p) ++
  match k with O => "" | _ => "." ++ zfill k (str_int (n mod p)) end.

Definition sign_str (s : bool) : string := if s then "-" else "".

(** [f"{x:.kf}"]: fixed notation with [k] decimals, correctly rounded. *)
Definition format_f (k : nat) (x : float) : string :=
  match x with
  | S754_nan => "nan"
  | S754_infinity s => sign_str s ++ "inf"
  | S754_zero s => sign_str s ++ fixed_digits k 0
  | S754_finite s m e => sign_str s ++ fixed_digits k (scaled k m e)
  end.

(** [datetime.now()] is an input of the renderer. *)
Record datetime := {
  year : Z; month : Z; day : Z; hour : Z; minute : Z; second : Z
}.

(** [strftime('%Y-%m-%d %H:%M:%S')] *)
Definition strftime (t : datetime) : string :=
  zfill 4 (str_int (year t)) ++ "-" ++ zfill 2 (str_int (month t)) ++ "-" ++
  zfill 2 (str_int (day t)) ++ " " ++ zfill 2 (str_int (hour t)) ++ ":" ++
  zfill 2 (str_int (minute t)) ++ ":" ++ zfill 2 (str_int (second t)).

End Py.
Import Py.

(** ** The hardware-management binding, [pynvml] *)

Module Nvml.

(** A device handle is opaque to the script. *)
Definition handle := N.

(** The struct [nvmlDeviceGetMemoryInfo] returns (bytes). *)
Record memory_info_t := { total : N; free : N; used : N }.

(** The struct [nvmlDeviceGetUtilizationRates] returns (percent). *)
Record utilization_t := { gpu : N; memory : N }.

(** What the subsystem answers during one call of the sampler.  All the
    readings are C unsigned integers. *)
Record pynvml := {
  nvmlInit : outcome unit;
  nvmlDeviceGetCount : outcome N;
  nvmlDeviceGetHandleByIndex : Z -> outcome handle;
  nvmlDeviceGetName : handle -> outcome string;
  nvmlDeviceGetTemperature : handle -> outcome N;
  nvmlDeviceGetFanSpeed : handle -> outcome N;
  nvmlDeviceGetMemoryInfo : handle -> outcome memory_info_t;
  nvmlDeviceGetUtilizationRates : handle -> outcome utilization_t;
  nvmlDeviceGetPowerUsage : handle -> outcome N;
  nvmlDeviceGetEnforcedPowerLimit : handle -> outcome N;
  nvmlSystemGetDriverVersion : outcome string;
  nvmlShutdown : outcome unit
}.

(** The calls made to the binding, in the order they are made. *)
Variant call :=
  | Init
  | DeviceGetCount
  | DeviceGetHandleByIndex (i : Z)
  | DeviceGetName (h : handle)
  | DeviceGetTemperature (h : handle)
  | DeviceGetFanSpeed (h : handle)
  | DeviceGetMemoryInfo (h : handle)
  | DeviceGetUtilizationRates (h : handle)
  | DeviceGetPowerUsage (h : handle)
  | DeviceGetEnforcedPowerLimit (h : handle)
  | SystemGetDriverVersion
  | Shutdown.

Definition is_Shutdown (c : call) : bool :=
  match c with Shutdown => true | _ => false end.

End Nvml.
Import Nvml.

(** ** Statements that call the binding

    A computation yields its outcome and the calls it made. *)

Module Stmt.

Definition M (A : Type) : Type := outcome A * list call.

Definition ret {A} (a : A) : M A := (Return a, []).

Definition bind {A B} (m : M A) (k : A -> M B) : M B :=
  match m with
  | (Return a, t) => let (o, t') := k a in (o, (t ++ t')%list)
  | (Raise e, t) => (Raise e, t)
  end.

(** An expression that calls nothing. *)
Definition eval {A} (o : outcome A) : M A := (o, []).

(** One call of the binding. *)
Definition invoke {A} (c : call) (o : outcome A) : M A := (o, [c]).

(** [try: body / except E: handler], where [catches] is membership in [E] *)
Definition try_except {A} (body : M A) (catches : exn -> bool)
    (handler : exn -> M A) : M A :=
  match body with
  | (Raise e, t) =>
      if catches e then let (o, t') := handler e in (o, (t ++ t')%list)
      else (Raise e, t)
  | done => done
  end.

(** [try: body / finally: final]: [final] runs whatever [body] did, and an
    exception of [final] replaces the outcome of [body]. *)
Definition try_finally {A} (body : M A) (final : M unit) : M A :=
  let (o, t) := body in
  match final with
  | (Return _, t') => (o, (t ++ t')%list)
  | (Raise e, t') => (Raise e, (t ++ t')%list)
  end.

(** [for i in idx: gpu_data.append(body(i))] *)
Fixpoint for_append {A} (body : Z -> M A) (idx : list Z) (gpu_data : list A)
    : M (list A) :=
  match idx with
  | [] => ret gpu_data
  | i :: rest => bind (body i) (fun d => for_append body rest (gpu_data ++ [d])%list)
  end.

(** [range(n)] *)
Definition range (n : Z) : list Z := map Z.of_nat (seq 0 (Z.to_nat n)).

End Stmt.
Import Stmt.

Notation "x <- m ;; k" := (bind m (fun x => k))
  (at level 61, m at next level, right associativity).

(** ** The sampler *)

(** The value under ["fan_speed"]: the [int] the query gave, or a [str]. *)
Variant fan_value :=
  | FanInt (n : Z)
  | FanStr (s : string).

(** One element of [gpu_data]: the dict built for one device. *)
Record gpu_dict := {
  id : Z;
  name : string;
  temp : Z;
  fan_speed : fan_value;
  mem_used : float;
  mem_total : float;
  mem_percent : number;
  gpu_util : Z;
  power_usage : float;
  power_limit : float;
  power_percent : number;
  driver_version : string
}.

(** What [get_gpu_data] returns: the list [gpu_data], or the dict
    [{"error": msg}]. *)
Variant sample_result :=
  | GpuList (gpu_data : list gpu_dict)
  | ErrorDict (error : string).

(** [(used / total) * 100 if total > 0 else 0], the conditional expression
    of both percentages. *)
Definition percent (used total : float) : outcome number :=
  if flt (float_of_int 0) total then
    match float_truediv used total with
    | Return q => Return (PyFloat (fmul q (float_of_int 100)))
    | Raise e => Raise e
    end
  else Return (PyInt 0).

(** The body of the [for] loop, up to the dict handed to [append]. *)
Definition device_sample (lib : pynvml) (i : Z) : M gpu_dict :=
  handle <- invoke (DeviceGetHandleByIndex i) (nvmlDeviceGetHandleByIndex lib i) ;;
  name <- invoke (DeviceGetName handle) (nvmlDeviceGetName lib handle) ;;
  temp <- invoke (DeviceGetTemperature handle) (nvmlDeviceGetTemperature lib handle) ;;
  fan_speed <-
    try_except
      (v <- invoke (DeviceGetFanSpeed handle) (nvmlDeviceGetFanSpeed lib handle) ;;
       ret (FanInt (Z.of_N v)))
      is_NVMLError_NotSupported
      (fun _ => ret (FanStr "N/A")) ;;
  memory_info <- invoke (DeviceGetMemoryInfo handle) (nvmlDeviceGetMemoryInfo lib handle) ;;
  mem_used <- eval (int_truediv (Z.of_N (used memory_info)) (1024 ^ 2)) ;;
  mem_total <- eval (int_truediv (Z.of_N (total memory_info)) (1024 ^ 2)) ;;
  mem_percent <- eval (percent mem_used mem_total) ;;
  utilization <- invoke (DeviceGetUtilizationRates handle)
                        (nvmlDeviceGetUtilizationRates lib handle) ;;
  let gpu_util := Z.of_N (gpu utilization) in
  w <- invoke (DeviceGetPowerUsage handle) (nvmlDeviceGetPowerUsage lib handle) ;;
  power_usage <- eval (float_truediv (float_of_int (Z.of_N w)) (float_of_int 1000)) ;;
  l <- invoke (DeviceGetEnforcedPowerLimit handle)
              (nvmlDeviceGetEnforcedPowerLimit lib handle) ;;
  power_limit <- eval (float_truediv (float_of_int (Z.of_N l)) (float_of_int 1000)) ;;
  power_percent <- eval (percent power_usage power_limit) ;;
  driver_version <- invoke SystemGetDriverVersion (nvmlSystemGetDriverVersion lib) ;;
  ret {| id := i;
         name := name;
         temp := Z.of_N temp;
         fan_speed := fan_speed;
         mem_used := mem_used;
         mem_total := mem_total;
         mem_percent := mem_percent;
         gpu_util := gpu_util;
         power_usage := power_usage;
         power_limit := power_limit;
         power_percent := power_percent;
         driver_version := driver_version |}.

(** [get_gpu_data()] *)
Definition get_gpu_data (lib : pynvml) : M sample_result :=
  try_finally
    (try_except
       (_ <- invoke Init (nvmlInit lib) ;;
        device_count <- invoke DeviceGetCount (nvmlDeviceGetCount lib) ;;
        gpu_data <- for_append (device_sample lib) (range (Z.of_N device_count)) [] ;;
        ret (GpuList gpu_data))
       is_NVMLError
       (fun e => ret (ErrorDict (str_exn e))))
    (try_except (invoke Shutdown (nvmlShutdown lib)) is_NVMLError (fun _ => ret tt)).

(** ** The display objects of [rich]

    Each object keeps the arguments its constructor was given; a [Table]
    also keeps what [add_column] and [add_row] appended, in order. *)

Module Rich.

Module ProgressBar.
Record t := { total : number; completed : number; width : Z }.
End ProgressBar.

Module Text.
Variant part :=
  | Str (s : string)
  | Bar (b : ProgressBar.t).

(** [Text(text, justify=.., style=..)] and [Text.assemble(parts..)] *)
Variant t :=
  | Text (text : string) (justify : string) (style : string)
  | assemble (parts : list part).
End Text.

Module Table.
Record column := {
  header : string; justify : string; style : string; no_wrap : bool
}.

(** A cell is a markup string or a [Text]. *)
Variant cell :=
  | Markup (s : string)
  | Rich (x : Text.t).

Record t := {
  title : string;
  expand : bool;
  border_style : string;
  columns : list column;
  rows : list (list cell)
}.

Definition Table (title : string) (expand : bool) (border_style : string) : t :=
  {| title := title; expand := expand; border_style := border_style;
     columns := []; rows := [] |}.

(** [justify] defaults to ["left"] and [no_wrap] to [False]. *)
Definition add_column (tb : t) (header justify style : string) (no_wrap : bool) : t :=
  {| title := title tb; expand := expand tb; border_style := border_style tb;
     columns := (columns tb ++ [ {| header := header; justify := justify;
                                    style := style; no_wrap := no_wrap |} ])%list;
     rows := rows tb |}.

Definition add_row (tb : t) (cells : list cell) : t :=
  {| title := title tb; expand := expand tb; border_style := border_style tb;
     columns := columns tb;
     rows := (rows tb ++ [cells])%list |}.
End Table.

Module Panel.
Variant renderable :=
  | OfText (x : Text.t)
  | OfTable (tb : Table.t).

Record t := {
  content : renderable;
  title : string;
  subtitle : option string;
  border_style : string
}.
End Panel.

(** The text a markup string shows: what stands outside its
    square-bracket tags. *)
Fixpoint untag (inside : bool) (s : string) : string :=
  match s with
  | EmptyString => EmptyString
  | String c rest =>
      if inside then untag (negb (Ascii.eqb c "]")) rest
      else if Ascii.eqb c "[" then untag true rest
      else String c (untag false rest)
  end.

Definition plain (markup : string) : string := untag false markup.

(** The console of the loop driver: [Console()] writes to standard
    output; only [Console(stderr=True)] writes to the error stream. *)
Module Console.
Record t := { stderr : bool }.
End Console.

End Rich.
Import Rich.

(** ** The renderer *)

(** The degree sign of ["°C"], two bytes in UTF-8. *)
Definition degree : string :=
  String (ascii_of_nat 194) (String (ascii_of_nat 176) "").

(** The [if]/[elif]/[else] that picks [temp_style]. *)
Definition temp_style (temp : Z) : string :=
  if 80 <=? temp then "bold red"
  else if 65 <=? temp then "yellow"
  else "green".

Definition temp_text (g : gpu_dict) : string :=
  "[" ++ temp_style (temp g) ++ "]" ++ str_int (temp g) ++ degree ++ "C[/" ++
  temp_style (temp g) ++ "]".

(** [isinstance(gpu['fan_speed'], int)] decides the fan cell. *)
Definition fan_text (g : gpu_dict) : string :=
  match fan_speed g with
  | FanInt n => str_int n ++ "%"
  | FanStr _ => "[dim]N/A[/dim]"
  end.

Definition newline : string := String (ascii_of_nat 10) "".

Definition power_text (g : gpu_dict) : Text.t :=
  let power_bar :=
    {| ProgressBar.total := PyInt 100; ProgressBar.completed := power_percent g;
       ProgressBar.width := 20 |} in
  Text.assemble
    [ Text.Str (format_f 1 (power_usage g) ++ "W / " ++ format_f 0 (power_limit g) ++
                "W" ++ newline);
      Text.Bar power_bar ].

Definition mem_text (g : gpu_dict) : Text.t :=
  let mem_bar :=
    {| ProgressBar.total := PyInt 100; ProgressBar.completed := mem_percent g;
       ProgressBar.width := 20 |} in
  Text.assemble
    [ Text.Str (format_f 0 (mem_used g) ++ "MiB / " ++ format_f 0 (mem_total g) ++
                "MiB" ++ newline);
      Text.Bar mem_bar ].

Definition gpu_util_text (g : gpu_dict) : Text.t :=
  let gpu_util_bar :=
    {| ProgressBar.total := PyInt 100; ProgressBar.completed := PyInt (gpu_util g);
       ProgressBar.width := 20 |} in
  Text.assemble
    [ Text.Str (str_int (gpu_util g) ++ "%"); Text.Str newline; Text.Bar gpu_util_bar ].

(** The arguments of [table.add_row] for one device. *)
Definition gpu_row (g : gpu_dict) : list Table.cell :=
  [ Table.Markup (str_int (id g));
    Table.Markup (name g);
    Table.Markup (temp_text g);
    Table.Markup (fan_text g);
    Table.Rich (power_text g);
    Table.Rich (mem_text g);
    Table.Rich (gpu_util_text g) ].

(** The table before the loop: the title and the seven columns. *)
Definition empty_table : Table.t :=
  let table := Table.Table "[bold yellow]GPU Monitor[/bold yellow]" true "green" in
  let table := Table.add_column table "ID" "right" "cyan" true in
  let table := Table.add_column table "GPU Name" "left" "magenta" false in
  let table := Table.add_column table "Temp" "right" "bright_green" false in
  let table := Table.add_column table "Fan" "right" "green" false in
  let table := Table.add_column table "Power (W)" "center" "yellow" false in
  let table := Table.add_column table "Memory (MiB)" "center" "blue" false in
  Table.add_column table "GPU Util" "center" "purple" false.

(** [gpu_data[0]['driver_version'] if gpu_data else "N/A"] *)
Definition footer_driver_version (gpu_data : list gpu_dict) : string :=
  match gpu_data with
  | [] => "N/A"
  | g :: _ => driver_version g
  end.

(** [generate_table(gpu_data)]; [now] is what [datetime.now()] reads. *)
Definition generate_table (now : datetime) (gpu_data : sample_result) : Panel.t :=
  match gpu_data with
  | ErrorDict error =>
      {| Panel.content :=
           Panel.OfText
             (Text.Text ("NVIDIA Driver/SMI Error:" ++ newline ++ error) "center" "bold red");
         Panel.title := "[bold yellow]GPU Monitor[/bold yellow]";
         Panel.subtitle := None;
         Panel.border_style := "red" |}
  | GpuList gpu_data =>
      let table := fold_left (fun tb g => Table.add_row tb (gpu_row g)) gpu_data empty_table in
      let driver_version := footer_driver_version gpu_data in
      let footer := "NVIDIA Driver: " ++ driver_version ++ " | Last updated: " ++
                    strftime now in
      {| Panel.content := Panel.OfTable table;
         Panel.title := "[b]GPU Status[/b]";
         Panel.subtitle := Some ("[dim]" ++ footer ++ "[/dim]");
         Panel.border_style := "blue" |}
  end.

(** ** The loop driver *)

Module Driver.

(** What one pass of sampling and showing meets: the subsystem, the
    clock, and whether the live display accepts the frame. *)
Record pass := {
  lib : pynvml;
  now : datetime;
  show : outcome unit
}.




(** [generate_table(get_gpu_data())] *)
Definition frame (p : pass) : outcome Panel.t :=
  match fst (get_gpu_data (lib p)) with
  | Return gpu_data => Return (generate_table (now p) gpu_data)
  | Raise e => Raise e
  end.







End Driver.
Import Driver.

(** ** Observations on frames *)

(** A table frame: the panel wraps a [Table]. *)
Definition is_table_frame (p : Panel.t) : bool :=
  match Panel.content p with
  | Panel.OfTable _ => true
  | Panel.OfText _ => false
  end.

(** An error panel: a titled panel around a text, both in the failure
    style (bold red text, red border). *)
Definition is_error_panel (p : Panel.t) : bool :=
  match Panel.content p with
  | Panel.OfText (Text.Text _ _ style) =>
      String.eqb style "bold red" && String.eqb (Panel.border_style p) "red" &&
      negb (String.eqb (plain (Panel.title p)) "")
  | _ => false
  end.

(** The text an error panel displays. *)
Definition panel_text (p : Panel.t) : option string :=
  match Panel.content p with
  | Panel.OfText (Text.Text text _ _) => Some text
  | _ => None
  end.

(** The rows of the table a table frame displays. *)
Definition panel_rows (p : Panel.t) : option (list (list Table.cell)) :=
  match Panel.content p with
  | Panel.OfTable tb => Some (Table.rows tb)
  | _ => None
  end.

(** ** Concrete subsystems *)

Module Scenario.

Definition MiB : N := 1048576.

(** [n] devices, each at 85 degrees, 8192 of 16384 MiB, 42 % busy,
    150 W of 250 W, fan at 30 %. *)
Definition healthy (n : N) : pynvml := {|
  nvmlInit := Return tt;
  nvmlDeviceGetCount := Return n;
  nvmlDeviceGetHandleByIndex := fun i => Return (Z.to_N i + 100)%N;
  nvmlDeviceGetName := fun h => Return "GPU";
  nvmlDeviceGetTemperature := fun h => Return 85%N;
  nvmlDeviceGetFanSpeed := fun h => Return 30%N;
  nvmlDeviceGetMemoryInfo := fun h =>
    Return {| total := 16384 * MiB; free := 8192 * MiB; used := 8192 * MiB |};
  nvmlDeviceGetUtilizationRates := fun h => Return {| gpu := 42; memory := 10 |};
  nvmlDeviceGetPowerUsage := fun h => Return 150000%N;
  nvmlDeviceGetEnforcedPowerLimit := fun h => Return 250000%N;
  nvmlSystemGetDriverVersion := Return "535.104";
  nvmlShutdown := Return tt
|}.

(** The fan query of the device with handle [h] fails with [e]. *)
Definition with_fan_failure (lib : pynvml) (h : handle) (e : exn) : pynvml := {|
  nvmlInit := nvmlInit lib;
  nvmlDeviceGetCount := nvmlDeviceGetCount lib;
  nvmlDeviceGetHandleByIndex := nvmlDeviceGetHandleByIndex lib;
  nvmlDeviceGetName := nvmlDeviceGetName lib;
  nvmlDeviceGetTemperature := nvmlDeviceGetTemperature lib;
  nvmlDeviceGetFanSpeed := fun h' =>
    if (h' =? h)%N then Raise e else nvmlDeviceGetFanSpeed lib h';
  nvmlDeviceGetMemoryInfo := nvmlDeviceGetMemoryInfo lib;
  nvmlDeviceGetUtilizationRates := nvmlDeviceGetUtilizationRates lib;
  nvmlDeviceGetPowerUsage := nvmlDeviceGetPowerUsage lib;
  nvmlDeviceGetEnforcedPowerLimit := nvmlDeviceGetEnforcedPowerLimit lib;
  nvmlSystemGetDriverVersion := nvmlSystemGetDriverVersion lib;
  nvmlShutdown := nvmlShutdown lib
|}.

(** The temperature query of the device with handle [h] fails with [e]. *)
Definition with_temperature_failure (lib : pynvml) (h : handle) (e : exn) : pynvml := {|
  nvmlInit := nvmlInit lib;
  nvmlDeviceGetCount := nvmlDeviceGetCount lib;
  nvmlDeviceGetHandleByIndex := nvmlDeviceGetHandleByIndex lib;
  nvmlDeviceGetName := nvmlDeviceGetName lib;
  nvmlDeviceGetTemperature := fun h' =>
    if (h' =? h)%N then Raise e else nvmlDeviceGetTemperature lib h';
  nvmlDeviceGetFanSpeed := nvmlDeviceGetFanSpeed lib;
  nvmlDeviceGetMemoryInfo := nvmlDeviceGetMemoryInfo lib;
  nvmlDeviceGetUtilizationRates := nvmlDeviceGetUtilizationRates lib;
  nvmlDeviceGetPowerUsage := nvmlDeviceGetPowerUsage lib;
  nvmlDeviceGetEnforcedPowerLimit := nvmlDeviceGetEnforcedPowerLimit lib;
  nvmlSystemGetDriverVersion := nvmlSystemGetDriverVersion lib;
  nvmlShutdown := nvmlShutdown lib
|}.

(** Every device draws [usage] milliwatts under a limit of [limit]. *)
Definition with_power (lib : pynvml) (usage limit : N) : pynvml := {|
  nvmlInit := nvmlInit lib;
  nvmlDeviceGetCount := nvmlDeviceGetCount lib;
  nvmlDeviceGetHandleByIndex := nvmlDeviceGetHandleByIndex lib;
  nvmlDeviceGetName := nvmlDeviceGetName lib;
  nvmlDeviceGetTemperature := nvmlDeviceGetTemperature lib;
  nvmlDeviceGetFanSpeed := nvmlDeviceGetFanSpeed lib;
  nvmlDeviceGetMemoryInfo := nvmlDeviceGetMemoryInfo lib;
  nvmlDeviceGetUtilizationRates := nvmlDeviceGetUtilizationRates lib;
  nvmlDeviceGetPowerUsage := fun _ => Return usage;
  nvmlDeviceGetEnforcedPowerLimit := fun _ => Return limit;
  nvmlSystemGetDriverVersion := nvmlSystemGetDriverVersion lib;
  nvmlShutdown := nvmlShutdown lib
|}.

(** No driver: every call fails, [nvmlShutdown] with "Uninitialized". *)
Definition driver_not_loaded : pynvml :=
  let e {A} : outcome A := Raise (NVMLError NVML_ERROR_DRIVER_NOT_LOADED "Driver Not Loaded") in
  {|
  nvmlInit := e;
  nvmlDeviceGetCount := e;
  nvmlDeviceGetHandleByIndex := fun _ => e;
  nvmlDeviceGetName := fun _ => e;
  nvmlDeviceGetTemperature := fun _ => e;
  nvmlDeviceGetFanSpeed := fun _ => e;
  nvmlDeviceGetMemoryInfo := fun _ => e;
  nvmlDeviceGetUtilizationRates := fun _ => e;
  nvmlDeviceGetPowerUsage := fun _ => e;
  nvmlDeviceGetEnforcedPowerLimit := fun _ => e;
  nvmlSystemGetDriverVersion := e;
  nvmlShutdown := Raise (NVMLError NVML_ERROR_UNINITIALIZED "Uninitialized")
|}.

Definition noon : datetime :=
  {| year := 2024; month := 3; day := 9; hour := 12; minute := 0; second := 5 |}.

Definition calm (lib : pynvml) : pass :=
  {| Driver.lib := lib; now := noon; show := Return tt |}.

End Scenario.

(** ** Notions the properties are stated with *)

(** An exception that one of the queries of the binding raises. *)
Definition binding_raises (lib : pynvml) (e : exn) : Prop :=
  nvmlInit lib = Raise e \/ nvmlDeviceGetCount lib = Raise e \/
  (exists i, nvmlDeviceGetHandleByIndex lib i = Raise e) \/
  (exists h, nvmlDeviceGetName lib h = Raise e) \/
  (exists h, nvmlDeviceGetTemperature lib h = Raise e) \/
  (exists h, nvmlDeviceGetFanSpeed lib h = Raise e) \/
  (exists h, nvmlDeviceGetMemoryInfo lib h = Raise e) \/
  (exists h, nvmlDeviceGetUtilizationRates lib h = Raise e) \/
  (exists h, nvmlDeviceGetPowerUsage lib h = Raise e) \/
  (exists h, nvmlDeviceGetEnforcedPowerLimit lib h = Raise e) \/
  nvmlSystemGetDriverVersion lib = Raise e \/ nvmlShutdown lib = Raise e.

(** [nvmlShutdown] returns, or fails the way the handler of the [finally]
    block absorbs. *)
Definition shutdown_quiet (lib : pynvml) : Prop :=
  match nvmlShutdown lib with
  | Return _ => True
  | Raise e => is_NVMLError e = true
  end.

(** The [try]/[except] part of [get_gpu_data], before the [finally]. *)
Definition sampled (lib : pynvml) : M sample_result :=
  try_except
    (_ <- invoke Init (nvmlInit lib) ;;
     device_count <- invoke DeviceGetCount (nvmlDeviceGetCount lib) ;;
     gpu_data <- for_append (device_sample lib) (range (Z.of_N device_count)) [] ;;
     ret (GpuList gpu_data))
    is_NVMLError
    (fun e => ret (ErrorDict (str_exn e))).

(** [g] with the placeholder where the fan reading goes. *)
Definition without_fan (g : gpu_dict) : gpu_dict :=
  {| id := id g; name := name g; temp := temp g;
     fan_speed := FanStr "N/A";
     mem_used := mem_used g; mem_total := mem_total g; mem_percent := mem_percent g;
     gpu_util := gpu_util g;
     power_usage := power_usage g; power_limit := power_limit g;
     power_percent := power_percent g;
     driver_version := driver_version g |}.

(** The sample [g] once the fan query of the device with handle [h] has
    been caught: that device shows the placeholder, the others are as
    they were. *)
Definition fan_unsupported_at (lib : pynvml) (h : handle) (g : gpu_dict) : gpu_dict :=
  match nvmlDeviceGetHandleByIndex lib (id g) with
  | Return h' => if (h' =? h)%N then without_fan g else g
  | Raise _ => g
  end.

(** The claim that any failure the subsystem signals for a fan query stays
    with its device. *)
Definition any_fan_failure_is_local : Prop :=
  forall lib h code msg gpu_data,
    fst (get_gpu_data lib) = Return (GpuList gpu_data) ->
    fst (get_gpu_data (Scenario.with_fan_failure lib h (NVMLError code msg)))
    = Return (GpuList (map (fan_unsupported_at lib h) gpu_data)).





(** A positive float, at least [2^(b-1)] when finite. *)
Definition positive_from (b : Z) (x : float) : Prop :=
  match x with
  | S754_finite false m e => b <= Zpos (digits2_pos m) + e
  | S754_infinity false => True
  | _ => False
  end.



(** ** Notions for the sequence of calls and for whole runs *)

(** The calls the loop body makes for device [i] when it runs to its end:
    the handle, then name, temperature, fan speed, memory, utilisation,
    power usage, power limit and driver version, in that order. *)
Definition device_calls (lib : pynvml) (i : Z) : list call :=
  match nvmlDeviceGetHandleByIndex lib i with
  | Return h =>
      [ DeviceGetHandleByIndex i; DeviceGetName h; DeviceGetTemperature h;
        DeviceGetFanSpeed h; DeviceGetMemoryInfo h; DeviceGetUtilizationRates h;
        DeviceGetPowerUsage h; DeviceGetEnforcedPowerLimit h; SystemGetDriverVersion ]
  | Raise _ => [ DeviceGetHandleByIndex i ]
  end.

(** The calls of [c] concern no device index but [i]. *)
Definition about_index (i : Z) (c : call) : Prop :=
  match c with
  | DeviceGetHandleByIndex j => j = i
  | _ => True
  end.




(** [nvmlShutdown] fails with [e]; everything else is as in [lib]. *)
Definition with_shutdown_failure (lib : pynvml) (e : exn) : pynvml := {|
  nvmlInit := nvmlInit lib;
  nvmlDeviceGetCount := nvmlDeviceGetCount lib;
  nvmlDeviceGetHandleByIndex := nvmlDeviceGetHandleByIndex lib;
  nvmlDeviceGetName := nvmlDeviceGetName lib;
  nvmlDeviceGetTemperature := nvmlDeviceGetTemperature lib;
  nvmlDeviceGetFanSpeed := nvmlDeviceGetFanSpeed lib;
  nvmlDeviceGetMemoryInfo := nvmlDeviceGetMemoryInfo lib;
  nvmlDeviceGetUtilizationRates := nvmlDeviceGetUtilizationRates lib;
  nvmlDeviceGetPowerUsage := nvmlDeviceGetPowerUsage lib;
  nvmlDeviceGetEnforcedPowerLimit := nvmlDeviceGetEnforcedPowerLimit lib;
  nvmlSystemGetDriverVersion := nvmlSystemGetDriverVersion lib;
  nvmlShutdown := Raise e
|}.

(** * Properties *)


(** ** The renderer *)

Section Renderer.

Variable now : datetime.



(** C10. The text of the error panel is the heading
    "NVIDIA Driver/SMI Error:", a newline, then the message (so never the
    bare message), in a red-bordered panel titled "GPU Monitor". *)
Theorem error_panel_text_has_heading (msg : string) :
  let p := generate_table now (ErrorDict msg) in
  panel_text p = Some ("NVIDIA Driver/SMI Error:" ++ newline ++ msg) /\
  panel_text p <> Some msg /\
  Panel.border_style p = "red" /\
  plain (Panel.title p) = "GPU Monitor".
Proof.
  intros p. repeat split; try reflexivity.
  intros H. injection H as H.
  apply (f_equal String.length) in H.
  simpl in H. lia.
Qed.


End Renderer.

(** C4. The style of the temperature cell depends on the integer
    temperature alone, with the thresholds 80 and 65: "bold red" from 80
    up, "yellow" from 65 to 79, "green" below 65. *)
Theorem temperature_bands (t : Z) :
  (80 <= t -> temp_style t = "bold red") /\
  (65 <= t < 80 -> temp_style t = "yellow") /\
  (t < 65 -> temp_style t = "green") /\
  (temp_style 64 = "green" /\ temp_style 65 = "yellow" /\
   temp_style 79 = "yellow" /\ temp_style 80 = "bold red") /\
  (forall g, temp g = t ->
     nth_error (gpu_row g) 2
       = Some (Table.Markup ("[" ++ temp_style t ++ "]" ++ str_int t ++ degree ++
                             "C[/" ++ temp_style t ++ "]"))).
Proof.
  unfold temp_style.
  repeat split; try reflexivity; try (intros g <-; reflexivity); intros H.
  - destruct (Z.leb_spec 80 t); [reflexivity | lia].
  - destruct (Z.leb_spec 80 t); [lia|].
    destruct (Z.leb_spec 65 t); [reflexivity | lia].
  - destruct (Z.leb_spec 80 t); [lia|].
    destruct (Z.leb_spec 65 t); [lia | reflexivity].
Qed.

Lemma temperature_bands_witness :
  temp_style 85 = "bold red" /\ temp_style 70 = "yellow" /\ temp_style 40 = "green".
Proof.
  split; [|split].
  - apply (proj1 (temperature_bands 85)). lia.
  - apply (proj1 (proj2 (temperature_bands 70))). lia.
  - apply (proj1 (proj2 (proj2 (temperature_bands 40)))). lia.
Defined.

(** ** The sampler: arithmetic *)

Lemma int_truediv_MiB (a : Z) :
  int_truediv a (1024 ^ 2)
  = Return (SFdiv prec emax (float_of_int a) (float_of_int 1048576)).
Proof. reflexivity. Qed.

Lemma float_truediv_1000 (x : float) :
  float_truediv x (float_of_int 1000)
  = Return (SFdiv prec emax x (float_of_int 1000)).
Proof. reflexivity. Qed.

Lemma positive_not_zero (x : float) : flt (float_of_int 0) x = true -> is_zero x = false.
Proof. destruct x; simpl; [discriminate | reflexivity ..]. Qed.

Lemma percent_cases (used total : float) :
  percent used total =
  Return (if flt (float_of_int 0) total
          then PyFloat (fmul (SFdiv prec emax used total) (float_of_int 100))
          else PyInt 0).
Proof.
  unfold percent, float_truediv.
  destruct (flt (float_of_int 0) total) eqn:Hpos; [|reflexivity].
  now rewrite (positive_not_zero _ Hpos).
Qed.

(** ** Reasoning on statements *)

Section Statements.

Context {A B : Type}.

Lemma fst_bind (m : M A) (k : A -> M B) :
  fst (bind m k) = match fst m with Return a => fst (k a) | Raise e => Raise e end.
Proof. destruct m as [[a|e] t]; simpl; [now destruct (k a) | reflexivity]. Qed.

Lemma snd_bind (m : M A) (k : A -> M B) :
  snd (bind m k)
  = match fst m with Return a => (snd m ++ snd (k a))%list | Raise _ => snd m end.
Proof. destruct m as [[a|e] t]; simpl; [now destruct (k a) | reflexivity]. Qed.

Lemma bind_Return_inv (m : M A) (k : A -> M B) (b : B) :
  fst (bind m k) = Return b -> exists a, fst m = Return a /\ fst (k a) = Return b.
Proof.
  rewrite fst_bind. destruct (fst m) as [a|e]; [|discriminate].
  intros H. now exists a.
Qed.

Lemma bind_Raise_inv (m : M A) (k : A -> M B) (e : exn) :
  fst (bind m k) = Raise e ->
  fst m = Raise e \/ exists a, fst m = Return a /\ fst (k a) = Raise e.
Proof.
  rewrite fst_bind. destruct (fst m) as [a|e']; intros H.
  - right. now exists a.
  - left. congruence.
Qed.

Lemma fst_try_except (body : M A) (catches : exn -> bool) (handler : exn -> M A) :
  fst (try_except body catches handler)
  = match fst body with
    | Return a => Return a
    | Raise e => if catches e then fst (handler e) else Raise e
    end.
Proof.
  destruct body as [[a|e] t]; simpl; [reflexivity|].
  destruct (catches e); [now destruct (handler e) | reflexivity].
Qed.

Lemma snd_try_except (body : M A) (catches : exn -> bool) (handler : exn -> M A) :
  snd (try_except body catches handler)
  = match fst body with
    | Return a => snd body
    | Raise e => if catches e then (snd body ++ snd (handler e))%list else snd body
    end.
Proof.
  destruct body as [[a|e] t]; simpl; [reflexivity|].
  destruct (catches e); [now destruct (handler e) | reflexivity].
Qed.

Lemma fst_try_finally (body : M A) (final : M unit) :
  fst (try_finally body final)
  = match fst final with Return _ => fst body | Raise e => Raise e end.
Proof. destruct body as [o t], final as [[u|e] t']; reflexivity. Qed.

Lemma snd_try_finally (body : M A) (final : M unit) :
  snd (try_finally body final) = (snd body ++ snd final)%list.
Proof. destruct body as [o t], final as [[u|e] t']; reflexivity. Qed.

End Statements.

(** The loop either appends one sample per index, in order, or raises what
    the first failing body raised. *)
Lemma for_append_Return {A} (body : Z -> M A) (idx : list Z) (acc out : list A) :
  fst (for_append body idx acc) = Return out ->
  exists ds, out = (acc ++ ds)%list /\
             Forall2 (fun i d => fst (body i) = Return d) idx ds.
Proof.
  revert acc. induction idx as [|i rest IH]; intros acc H.
  - injection H as <-. exists []. now rewrite app_nil_r.
  - cbn [for_append] in H. apply bind_Return_inv in H as (d & Hd & H).
    apply IH in H as (ds & -> & Hds).
    exists (d :: ds). split; [now rewrite <- app_assoc | now constructor].
Qed.

Lemma for_append_Raise {A} (body : Z -> M A) (before after : list Z) (k : Z)
    (acc : list A) (e : exn) :
  (forall j, In j before -> exists d, fst (body j) = Return d) ->
  fst (body k) = Raise e ->
  fst (for_append body (before ++ k :: after) acc) = Raise e.
Proof.
  revert acc. induction before as [|j rest IH]; intros acc Hbefore Hk.
  - cbn [app for_append]. now rewrite fst_bind, Hk.
  - cbn [app for_append]. rewrite fst_bind.
    destruct (Hbefore j (or_introl eq_refl)) as (d & ->).
    apply IH; [|exact Hk]. intros j' Hj'. apply Hbefore. now right.
Qed.

Lemma range_split (n k : Z) :
  0 <= k < n ->
  range n = (range k ++ k :: map Z.of_nat (seq (S (Z.to_nat k)) (Z.to_nat n - S (Z.to_nat k))))%list.
Proof.
  intros H. unfold range.
  replace (Z.to_nat n) with (Z.to_nat k + S (Z.to_nat n - S (Z.to_nat k)))%nat by lia.
  rewrite seq_app, map_app. cbn [seq map Nat.add].
  replace (Z.to_nat k + S (Z.to_nat n - S (Z.to_nat k)) - S (Z.to_nat k))%nat
    with (Z.to_nat n - S (Z.to_nat k))%nat by lia.
  now rewrite Z2Nat.id by lia.
Qed.

Lemma In_range (n j : Z) : In j (range n) <-> 0 <= j < n.
Proof.
  unfold range. rewrite in_map_iff. split.
  - intros (x & <- & Hx). apply in_seq in Hx. lia.
  - intros H. exists (Z.to_nat j). split; [lia|]. apply in_seq. lia.
Qed.

(** Taking a bind chain apart along a successful run. *)
Ltac returned H :=
  repeat (cbv zeta in H;
          let a := fresh "v" in
          let Ha := fresh "Hv" in
          apply bind_Return_inv in H as (a & Ha & H)).


Lemma device_sample_raises_from_binding (lib : pynvml) (i : Z) (e : exn) :
  fst (device_sample lib i) = Raise e -> binding_raises lib e.
Proof.
  unfold device_sample, binding_raises. intros H.
  repeat (cbv zeta in H;
          apply bind_Raise_inv in H as [H | (? & ? & H)];
          [ cbn [invoke eval fst] in H;
            rewrite ?int_truediv_MiB, ?float_truediv_1000, ?percent_cases in H;
            try discriminate H; eauto 15 | ]).
  - rewrite fst_try_except, fst_bind in H. cbn [invoke fst] in H.
    destruct (nvmlDeviceGetFanSpeed lib _) as [n|e'] eqn:Hfan; [discriminate H|].
    destruct (is_NVMLError_NotSupported e'); [discriminate H|].
    injection H as ->. eauto 15.
  - discriminate H.
Qed.

(** ** Binary64: signs and magnitudes of the results *)


Lemma iter_pos_invariant {A} (P : A -> Prop) (f : A -> A) :
  (forall x, P x -> P (f x)) -> forall n x, P x -> P (iter_pos f n x).
Proof.
  intros Hf. induction n as [n IH|n IH|]; intros x Hx; cbn [iter_pos]; auto.
Qed.

Lemma Zdigits2_log2 (m : Z) : 0 < m -> Zdigits2 m = Z.log2 m + 1.
Proof.
  destruct m as [|p|p]; try lia. intros _. cbn [Zdigits2].
  assert (H : forall q, Zpos (digits2_pos q) = Zpos (Pos.size q)).
  { induction q as [q IH|q IH|]; cbn [digits2_pos Pos.size]; [| |reflexivity];
      rewrite !Pos2Z.inj_succ, IH; reflexivity. }
  rewrite H. destruct p; cbn [Z.log2 Pos.size]; lia.
Qed.

Lemma Zdigits2_nonneg (m : Z) : 0 <= Zdigits2 m.
Proof. destruct m; cbn; lia. Qed.

Lemma Zdigits2_le (a b : Z) : 0 <= a <= b -> Zdigits2 a <= Zdigits2 b.
Proof.
  intros H. destruct (Z.eq_dec a 0) as [->|Ha]; [apply Zdigits2_nonneg|].
  rewrite !Zdigits2_log2 by lia. apply Z.add_le_mono_r, Z.log2_le_mono. lia.
Qed.



Lemma shr_1_digits (mrs : shr_record) :
  0 <= shr_m mrs ->
  0 <= shr_m (shr_1 mrs) /\
  Zdigits2 (shr_m (shr_1 mrs)) = Z.max 0 (Zdigits2 (shr_m mrs) - 1).
Proof.
  destruct mrs as [m r s]. cbn [shr_m]. intros Hm.
  destruct m as [|[p|p|]|p]; cbn [shr_1 shr_m Zdigits2 digits2_pos]; try lia.
Qed.

Lemma iter_shr_1_digits (n : positive) (mrs : shr_record) :
  0 <= shr_m mrs ->
  0 <= shr_m (iter_pos shr_1 n mrs) /\
  Zdigits2 (shr_m (iter_pos shr_1 n mrs)) = Z.max 0 (Zdigits2 (shr_m mrs) - Zpos n).
Proof.
  revert mrs. induction n as [n IH|n IH|]; intros mrs Hm; cbn [iter_pos].
  - destruct (shr_1_digits mrs Hm) as (H1 & E1).
    destruct (IH _ H1) as (H2 & E2). destruct (IH _ H2) as (H3 & E3).
    split; [exact H3|]. rewrite E3, E2, E1. lia.
  - destruct (IH _ Hm) as (H2 & E2). destruct (IH _ H2) as (H3 & E3).
    split; [exact H3|]. rewrite E3, E2. lia.
  - apply shr_1_digits, Hm.
Qed.

Lemma shr_record_of_loc_m (m : Z) (l : location) : shr_m (shr_record_of_loc m l) = m.
Proof. destruct l as [|[]]; reflexivity. Qed.





Lemma digits2_pos_iter_xO (m d : positive) :
  Zpos (digits2_pos (Pos.iter xO m d)) = Zpos (digits2_pos m) + Zpos d.
Proof.
  induction d as [|d IH] using Pos.peano_ind.
  - cbn. lia.
  - rewrite Pos.iter_succ. cbn [digits2_pos]. lia.
Qed.


Lemma Zdigits2_shiftl (m s : Z) : 0 < m -> 0 <= s -> Zdigits2 (Z.shiftl m s) = Zdigits2 m + s.
Proof.
  intros Hm Hs.
  assert (0 < Z.shiftl m s) by (rewrite Z.shiftl_mul_pow2 by lia; nia).
  rewrite !Zdigits2_log2 by lia. rewrite Z.log2_shiftl by lia. lia.
Qed.










Lemma positive_from_lt_0 (b : Z) (x : float) :
  positive_from b x -> flt (float_of_int 0) x = true.
Proof. destruct x as [s|[]| |[] m e]; cbn; tauto. Qed.

Lemma Zdigits2_pos (m : Z) : 0 <= m -> 0 < Zdigits2 m -> 0 < m.
Proof. destruct m; cbn; lia. Qed.

(** In the normal range [shr_fexp] keeps 53 digits, so nothing is lost of
    the magnitude. *)
Lemma shr_fexp_normal (m e : Z) (l : location) :
  0 < m -> -1021 <= Zdigits2 m + e ->
  let '(mrs, e') := shr_fexp prec emax m e l in
  0 < shr_m mrs /\ Zdigits2 (shr_m mrs) + e' = Zdigits2 m + e.
Proof.
  intros Hm Hnormal. unfold shr_fexp, shr.
  pose proof (Zdigits2_log2 m Hm) as Hd. pose proof (Z.log2_nonneg m) as Hlog.
  destruct (fexp prec emax (Zdigits2 m + e) - e) as [|n|n] eqn:Hn;
    rewrite ?shr_record_of_loc_m; try (split; [exact Hm | reflexivity]).
  destruct (iter_shr_1_digits n (shr_record_of_loc m l)) as (H & E);
    rewrite ?shr_record_of_loc_m in *; [lia|].
  unfold fexp, emin, prec, emax in Hn.
  split; [apply Zdigits2_pos; [exact H | rewrite E; lia] | rewrite E; lia].
Qed.

Lemma round_nearest_even_ge (m : Z) (l : location) : m <= round_nearest_even m l.
Proof.
  destruct l as [|[]]; cbn [round_nearest_even]; try lia. destruct (Z.even m); lia.
Qed.

Lemma binary_round_aux_positive (m e b : Z) (l : location) :
  0 < m -> -1021 <= b <= Zdigits2 m + e ->
  positive_from b (binary_round_aux prec emax false m e l).
Proof.
  intros Hm Hb. unfold binary_round_aux.
  pose proof (shr_fexp_normal m e l Hm (ltac:(lia))) as H1.
  destruct (shr_fexp prec emax m e l) as [mrs' e']. destruct H1 as (Hm' & Hd').
  pose proof (round_nearest_even_ge (shr_m mrs') (loc_of_shr_record mrs')) as Hge.
  set (m1 := round_nearest_even (shr_m mrs') (loc_of_shr_record mrs')) in *.
  pose proof (Zdigits2_le (shr_m mrs') m1 (ltac:(lia))) as Hd1.
  pose proof (shr_fexp_normal m1 e' loc_Exact (ltac:(lia)) (ltac:(lia))) as H2.
  destruct (shr_fexp prec emax m1 e' loc_Exact) as [mrs'' e''].
  destruct H2 as (Hm'' & Hd'').
  destruct (shr_m mrs'') as [|p|p]; try lia.
  cbn [Zdigits2] in Hd''.
  destruct (e'' <=? emax - prec); cbn [positive_from]; [lia | exact I].
Qed.

Lemma float_of_int_positive (p : positive) : positive_from 1 (float_of_int (Zpos p)).
Proof.
  unfold float_of_int. cbn [binary_normalize]. unfold binary_round, shl_align.
  assert (0 < Zpos (digits2_pos p)) by lia.
  destruct (fexp prec emax (Zpos (digits2_pos p) + 0) - 0) as [|d|d] eqn:Hshift;
    apply binary_round_aux_positive; cbn [Zdigits2];
    rewrite ?digits2_pos_iter_xO; unfold fexp, emin, prec, emax in *; lia.
Qed.

Lemma Zdigits2_spec (m : Z) : 0 < m -> 2 ^ (Zdigits2 m - 1) <= m < 2 ^ Zdigits2 m.
Proof.
  intros Hm. rewrite Zdigits2_log2 by exact Hm.
  replace (Z.log2 m + 1 - 1) with (Z.log2 m) by lia.
  replace (Z.log2 m + 1) with (Z.succ (Z.log2 m)) by lia.
  apply Z.log2_spec, Hm.
Qed.

(** Far enough shifted, the quotient of the mantissas keeps the magnitude
    of the quotient of the numbers. *)
Lemma SFdiv_core_binary_normal (mx my : positive) (ex ey : Z) :
  -1021 <= Zpos (digits2_pos mx) + ex - (Zpos (digits2_pos my) + ey) ->
  let '(q, e', l) := SFdiv_core_binary prec emax (Zpos mx) ex (Zpos my) ey in
  0 < q /\
  Zpos (digits2_pos mx) + ex - (Zpos (digits2_pos my) + ey) <= Zdigits2 q + e'.
Proof.
  intros Hnormal. unfold SFdiv_core_binary. cbn [Zdigits2].
  set (d1 := Zpos (digits2_pos mx)) in *. set (d2 := Zpos (digits2_pos my)) in *.
  set (e' := Z.min _ _). set (s := ex - ey - e').
  assert (Hs : 0 <= s /\ d2 + 53 <= d1 + s).
  { unfold s, e', fexp, emin, prec, emax. lia. }
  set (m' := match s with Z0 => _ | Zpos _ => _ | Zneg _ => _ end).
  assert (Hm' : 0 < m' /\ Zdigits2 m' = d1 + s).
  { unfold m'. destruct s as [|p|p] eqn:Hp; [cbn [Zdigits2]; fold d1; lia | | lia].
    split; [|rewrite Zdigits2_shiftl by lia; reflexivity].
    rewrite Z.shiftl_mul_pow2 by lia. nia. }
  destruct Hm' as (Hpos & Hdig).
  pose proof (Z_div_mod m' (Zpos my) eq_refl) as Hdiv.
  destruct (Z.div_eucl m' (Zpos my)) as [q r]. destruct Hdiv as (Heq & Hr).
  pose proof (Zdigits2_spec m' Hpos) as (Hlow & _). rewrite Hdig in Hlow.
  pose proof (Zdigits2_spec (Zpos my) eq_refl) as (_ & Hhigh).
  cbn [Zdigits2] in Hhigh. fold d2 in Hhigh.
  assert (Hq : 2 ^ (d1 + s - 1 - d2) <= q).
  { apply Z.nlt_ge. intros Hlt.
    assert (Hsplit : 2 ^ (d1 + s - 1) = 2 ^ (d1 + s - 1 - d2) * 2 ^ d2).
    { rewrite <- Z.pow_add_r by (unfold d2; lia). f_equal. lia. }
    assert (0 < 2 ^ (d1 + s - 1 - d2)) by (apply Z.pow_pos_nonneg; lia).
    nia. }
  assert (0 < 2 ^ (d1 + s - 1 - d2)) by (apply Z.pow_pos_nonneg; lia).
  split; [lia|].
  assert (d1 + s - 1 - d2 <= Z.log2 q) by (apply Z.log2_le_pow2; lia).
  rewrite (Zdigits2_log2 q) by lia. unfold s. lia.
Qed.

Lemma SFdiv_positive (mx my : positive) (ex ey b : Z) :
  -1021 <= b <= Zpos (digits2_pos mx) + ex - (Zpos (digits2_pos my) + ey) ->
  positive_from b (SFdiv prec emax (S754_finite false mx ex) (S754_finite false my ey)).
Proof.
  intros Hb. cbn [SFdiv xorb].
  pose proof (SFdiv_core_binary_normal mx my ex ey (ltac:(lia))) as H.
  destruct (SFdiv_core_binary prec emax (Zpos mx) ex (Zpos my) ey) as [[q e'] l].
  destruct H as (Hq & Hd). apply binary_round_aux_positive; lia.
Qed.

(** A reading above zero stays above zero when divided into megabytes or
    watts. *)
Lemma reading_positive (n : N) (c : float) :
  (c = float_of_int 1000 \/ c = float_of_int 1048576) ->
  (0 < n)%N ->
  flt (float_of_int 0) (SFdiv prec emax (float_of_int (Z.of_N n)) c) = true.
Proof.
  intros Hc Hn. destruct n as [|p]; [lia|]. cbn [Z.of_N].
  pose proof (float_of_int_positive p) as Hx.
  apply (positive_from_lt_0 (-20)).
  destruct (float_of_int (Zpos p)) as [s|[]| |[] m e]; cbn [positive_from] in Hx;
    try contradiction.
  - destruct Hc as [-> | ->]; exact I.
  - destruct Hc as [-> | ->].
    + change (float_of_int 1000) with (S754_finite false 8796093022208000 (-43)).
      apply SFdiv_positive. cbn [digits2_pos Pos.succ]. lia.
    + change (float_of_int 1048576) with (S754_finite false 4503599627370496 (-32)).
      apply SFdiv_positive. cbn [digits2_pos Pos.succ]. lia.
Qed.

Lemma percent_of_reading (used : float) (n : N) (c : float) (v : number) :
  (c = float_of_int 1000 \/ c = float_of_int 1048576) ->
  percent used (SFdiv prec emax (float_of_int (Z.of_N n)) c) = Return v ->
  v = if (n =? 0)%N then PyInt 0
      else PyFloat (fmul (SFdiv prec emax used
                            (SFdiv prec emax (float_of_int (Z.of_N n)) c))
                         (float_of_int 100)).
Proof.
  intros Hc. rewrite percent_cases.
  destruct (N.eqb_spec n 0) as [->|Hn].
  - intros [= <-]. destruct Hc as [-> | ->]; reflexivity.
  - rewrite (reading_positive n c Hc) by lia. now intros [= <-].
Qed.

Lemma device_sample_percent_of_readings (lib : pynvml) (i : Z) (g : gpu_dict) :
  fst (device_sample lib i) = Return g ->
  exists h mi limit,
    nvmlDeviceGetHandleByIndex lib i = Return h /\
    nvmlDeviceGetMemoryInfo lib h = Return mi /\
    nvmlDeviceGetEnforcedPowerLimit lib h = Return limit /\
    mem_percent g
    = (if (total mi =? 0)%N then PyInt 0
       else PyFloat (fmul (SFdiv prec emax (mem_used g) (mem_total g))
                          (float_of_int 100))) /\
    power_percent g
    = (if (limit =? 0)%N then PyInt 0
       else PyFloat (fmul (SFdiv prec emax (power_usage g) (power_limit g))
                          (float_of_int 100))).
Proof.
  intros Hg. unfold device_sample in Hg. returned Hg. injection Hg as <-.
  cbn [invoke eval fst power_usage power_limit power_percent mem_used mem_total
       mem_percent] in *.
  rewrite int_truediv_MiB in Hv4, Hv5. rewrite float_truediv_1000 in Hv9, Hv11.
  injection Hv4 as <-. injection Hv5 as <-. injection Hv9 as <-. injection Hv11 as <-.
  exists v, v3, v10. repeat split; try assumption.
  - apply percent_of_reading; [now right | exact Hv6].
  - apply percent_of_reading; [now left | exact Hv12].
Qed.

(** C3. Both percentages are [used / total * 100] when the total (or the
    limit) is above zero and [0] when it is zero, on the floats of the
    expression and on the readings they come from; the guard keeps every
    division away from a zero divisor, 0/0 included, so the arithmetic of
    the sampler raises nothing. *)
Theorem percentages_never_divide_by_zero :
  (forall used total : float,
     flt (float_of_int 0) total = true ->
     percent used total
     = Return (PyFloat (fmul (SFdiv prec emax used total) (float_of_int 100)))) /\
  (forall used total : float,
     is_zero total = true -> percent used total = Return (PyInt 0)) /\
  (forall (used total : float) e, percent used total <> Raise e) /\
  (forall lib i g,
     fst (device_sample lib i) = Return g ->
     exists h mi limit,
       nvmlDeviceGetHandleByIndex lib i = Return h /\
       nvmlDeviceGetMemoryInfo lib h = Return mi /\
       nvmlDeviceGetEnforcedPowerLimit lib h = Return limit /\
       mem_percent g
       = (if (total mi =? 0)%N then PyInt 0
          else PyFloat (fmul (SFdiv prec emax (mem_used g) (mem_total g))
                             (float_of_int 100))) /\
       power_percent g
       = (if (limit =? 0)%N then PyInt 0
          else PyFloat (fmul (SFdiv prec emax (power_usage g) (power_limit g))
                             (float_of_int 100)))) /\
  (forall lib i e, fst (device_sample lib i) = Raise e -> binding_raises lib e).
Proof.
  split; [|split; [|split; [|split]]].
  - intros used total H. now rewrite percent_cases, H.
  - intros used total H. rewrite percent_cases. now destruct total.
  - intros used total e. now rewrite percent_cases.
  - exact device_sample_percent_of_readings.
  - exact device_sample_raises_from_binding.
Qed.

Lemma percentages_never_divide_by_zero_witness :
  percent (float_of_int 8192) (float_of_int 16384) = Return (PyFloat (float_of_int 50)) /\
  percent (float_of_int 0) (float_of_int 0) = Return (PyInt 0) /\
  (exists g, fst (device_sample (Scenario.healthy 1) 0) = Return g /\
             mem_percent g = PyFloat (float_of_int 50) /\
             power_percent g = PyFloat (float_of_int 60)) /\
  (exists g, fst (device_sample (Scenario.with_power (Scenario.healthy 1) 0 0) 0)
             = Return g /\ power_percent g = PyInt 0) /\
  binding_raises
    (Scenario.with_temperature_failure (Scenario.healthy 1) 100%N
       (NVMLError NVML_ERROR_GPU_IS_LOST "GPU is lost"))
    (NVMLError NVML_ERROR_GPU_IS_LOST "GPU is lost").
Proof.
  destruct percentages_never_divide_by_zero as (Hpos & Hzero & _ & Hsample & Hraise).
  split; [|split; [|split; [|split]]].
  - apply (Hpos (float_of_int 8192) (float_of_int 16384)). reflexivity.
  - apply (Hzero (float_of_int 0) (float_of_int 0)). reflexivity.
  - eexists. split; [reflexivity|].
    destruct (Hsample (Scenario.healthy 1) 0 _ eq_refl)
      as (h & mi & limit & _ & Hmi & Hlimit & Hmem & Hpower).
    injection Hmi as <-. injection Hlimit as <-. split; [exact Hmem | exact Hpower].
  - eexists. split; [reflexivity|].
    destruct (Hsample (Scenario.with_power (Scenario.healthy 1) 0 0) 0 _ eq_refl)
      as (h & mi & limit & _ & _ & Hlimit & _ & Hpower).
    injection Hlimit as <-. exact Hpower.
  - apply (Hraise _ 0). reflexivity.
Defined.

(** ** The sampler: all or nothing *)

Lemma fst_shutdown (lib : pynvml) :
  fst (try_except (invoke Shutdown (nvmlShutdown lib)) is_NVMLError (fun _ => ret tt))
  = match nvmlShutdown lib with
    | Return u => Return u
    | Raise e => if is_NVMLError e then Return tt else Raise e
    end.
Proof. rewrite fst_try_except. cbn [invoke fst]. now destruct (nvmlShutdown lib). Qed.

Lemma fst_get_gpu_data (lib : pynvml) :
  fst (get_gpu_data lib)
  = match nvmlShutdown lib with
    | Return _ => fst (sampled lib)
    | Raise e => if is_NVMLError e then fst (sampled lib) else Raise e
    end.
Proof.
  unfold get_gpu_data. rewrite fst_try_finally, fst_shutdown. fold (sampled lib).
  destruct (nvmlShutdown lib) as [u|e]; [reflexivity|].
  now destruct (is_NVMLError e).
Qed.

Lemma get_gpu_data_quiet (lib : pynvml) (r : sample_result) :
  fst (get_gpu_data lib) = Return r -> shutdown_quiet lib /\ fst (sampled lib) = Return r.
Proof.
  rewrite fst_get_gpu_data. unfold shutdown_quiet.
  destruct (nvmlShutdown lib) as [u|e]; [now split|].
  destruct (is_NVMLError e); [now split | discriminate].
Qed.

Lemma quiet_get_gpu_data (lib : pynvml) :
  shutdown_quiet lib -> fst (get_gpu_data lib) = fst (sampled lib).
Proof.
  rewrite fst_get_gpu_data. unfold shutdown_quiet.
  destruct (nvmlShutdown lib) as [u|e]; [reflexivity|]. now intros ->.
Qed.

Lemma sampled_list (lib : pynvml) (gpu_data : list gpu_dict) :
  fst (sampled lib) = Return (GpuList gpu_data) ->
  exists n, nvmlInit lib = Return tt /\ nvmlDeviceGetCount lib = Return n /\
            Forall2 (fun i g => fst (device_sample lib i) = Return g)
                    (range (Z.of_N n)) gpu_data.
Proof.
  unfold sampled. rewrite fst_try_except.
  match goal with
  | |- match ?body with _ => _ end = _ -> _ => destruct body as [r|e] eqn:Hbody
  end.
  - intros [= ->].
    apply bind_Return_inv in Hbody as ([] & Hinit & Hbody).
    apply bind_Return_inv in Hbody as (n & Hcount & Hbody).
    apply bind_Return_inv in Hbody as (l & Hloop & Hbody).
    cbn [invoke ret fst] in *. injection Hbody as <-.
    apply for_append_Return in Hloop as (ds & -> & Hds).
    exists n. auto.
  - destruct (is_NVMLError e); discriminate.
Qed.

Lemma for_append_all {A} (body : Z -> M A) (idx : list Z) (acc ds : list A) :
  Forall2 (fun i d => fst (body i) = Return d) idx ds ->
  fst (for_append body idx acc) = Return (acc ++ ds)%list.
Proof.
  intros H. revert acc. induction H as [|i d idx ds Hd _ IH]; intros acc.
  - cbn. now rewrite app_nil_r.
  - cbn [for_append]. rewrite fst_bind, Hd, IH. now rewrite <- app_assoc.
Qed.

Lemma sampled_all (lib : pynvml) (n : N) (gpu_data : list gpu_dict) :
  nvmlInit lib = Return tt -> nvmlDeviceGetCount lib = Return n ->
  Forall2 (fun i g => fst (device_sample lib i) = Return g) (range (Z.of_N n)) gpu_data ->
  fst (sampled lib) = Return (GpuList gpu_data).
Proof.
  intros Hinit Hcount Hall. unfold sampled.
  rewrite fst_try_except, !fst_bind. cbn [invoke fst].
  rewrite Hinit, Hcount, fst_bind.
  now rewrite (for_append_all _ _ [] _ Hall).
Qed.

Lemma sampled_failure (lib : pynvml) (n : N) (k : Z) (e : exn) :
  nvmlInit lib = Return tt -> nvmlDeviceGetCount lib = Return n ->
  0 <= k < Z.of_N n ->
  (forall j, 0 <= j < k -> exists g, fst (device_sample lib j) = Return g) ->
  fst (device_sample lib k) = Raise e ->
  fst (sampled lib) = if is_NVMLError e then Return (ErrorDict (str_exn e)) else Raise e.
Proof.
  intros Hinit Hcount Hk Hbefore Hfail. unfold sampled.
  rewrite fst_try_except, !fst_bind. cbn [invoke fst].
  rewrite Hinit, Hcount, fst_bind, (range_split _ k Hk).
  rewrite (for_append_Raise _ _ _ k [] e); [reflexivity | | exact Hfail].
  intros j Hj. apply Hbefore. now apply In_range.
Qed.

Lemma for_append_Raise_inv {A} (body : Z -> M A) (idx : list Z) (acc : list A) (e : exn) :
  fst (for_append body idx acc) = Raise e -> exists i, In i idx /\ fst (body i) = Raise e.
Proof.
  revert acc. induction idx as [|i rest IH]; intros acc H; [discriminate H|].
  cbn [for_append] in H. apply bind_Raise_inv in H as [H | (d & _ & H)].
  - exists i. split; [now left | exact H].
  - destruct (IH _ H) as (j & Hj & He). exists j. split; [now right | exact He].
Qed.

Lemma get_gpu_data_raises (lib : pynvml) (e : exn) :
  fst (get_gpu_data lib) = Raise e -> is_NVMLError e = false /\ binding_raises lib e.
Proof.
  rewrite fst_get_gpu_data. intros H.
  assert (Hsampled : fst (sampled lib) = Raise e ->
                     is_NVMLError e = false /\ binding_raises lib e).
  { clear H. unfold sampled. rewrite fst_try_except.
    match goal with
    | |- match ?body with _ => _ end = _ -> _ => destruct body as [r|e'] eqn:Hbody
    end; [discriminate|].
    destruct (is_NVMLError e') eqn:He'; [discriminate|]. intros [= <-].
    split; [exact He'|]. unfold binding_raises.
    apply bind_Raise_inv in Hbody as [Hbody | (? & _ & Hbody)]; [auto|].
    apply bind_Raise_inv in Hbody as [Hbody | (? & _ & Hbody)]; [auto|].
    apply bind_Raise_inv in Hbody as [Hbody | (? & _ & Hbody)]; [|discriminate Hbody].
    apply for_append_Raise_inv in Hbody as (i & _ & Hbody).
    now apply device_sample_raises_from_binding in Hbody. }
  destruct (nvmlShutdown lib) as [u|e'] eqn:Hshut; [auto|].
  destruct (is_NVMLError e') eqn:He'; [auto|].
  injection H as ->. split; [exact He'|]. unfold binding_raises. tauto.
Qed.

(** C2. What the sampler returns is a whole list or an error, never part
    of a list: a returned list has one sample for each enumerated device, in
    enumeration order, and a query that fails for device [k], after the
    devices before it were collected, gives [{"error": msg}] and no list.
    No [NVMLError] leaves the sampler: it returns one of the two whenever
    the binding raises nothing else. *)
Theorem sampler_all_or_nothing (lib : pynvml) :
  (forall gpu_data,
     fst (get_gpu_data lib) = Return (GpuList gpu_data) ->
     exists n, nvmlDeviceGetCount lib = Return n /\
               Forall2 (fun i g => fst (device_sample lib i) = Return g /\ id g = i)
                       (range (Z.of_N n)) gpu_data) /\
  (forall n k e,
     nvmlInit lib = Return tt -> nvmlDeviceGetCount lib = Return n ->
     0 <= k < Z.of_N n ->
     (forall j, 0 <= j < k -> exists g, fst (device_sample lib j) = Return g) ->
     fst (device_sample lib k) = Raise e ->
     is_NVMLError e = true ->
     shutdown_quiet lib ->
     fst (get_gpu_data lib) = Return (ErrorDict (str_exn e))) /\
  ((forall e, binding_raises lib e -> is_NVMLError e = true) ->
   exists result, fst (get_gpu_data lib) = Return result).
Proof.
  split; [|split].
  - intros gpu_data H. apply get_gpu_data_quiet in H as (_ & H).
    apply sampled_list in H as (n & _ & Hcount & Hall).
    exists n. split; [exact Hcount|].
    eapply Forall2_impl; [|exact Hall]. intros i g Hg. split; [exact Hg|].
    unfold device_sample in Hg. returned Hg. now injection Hg as <-.
  - intros n k e Hinit Hcount Hk Hbefore Hfail He Hquiet.
    rewrite (quiet_get_gpu_data _ Hquiet).
    now rewrite (sampled_failure lib n k e Hinit Hcount Hk Hbefore Hfail), He.
  - intros Honly. destruct (fst (get_gpu_data lib)) as [result|e] eqn:H.
    + now exists result.
    + apply get_gpu_data_raises in H as (He & Hraised).
      apply Honly in Hraised. congruence.
Qed.

Lemma sampler_all_or_nothing_witness :
  fst (get_gpu_data
         (Scenario.with_temperature_failure (Scenario.healthy 2) 101%N
            (NVMLError NVML_ERROR_GPU_IS_LOST "GPU is lost")))
  = Return (ErrorDict "GPU is lost") /\
  (exists gpu_data, fst (get_gpu_data (Scenario.healthy 2)) = Return (GpuList gpu_data) /\
                    map id gpu_data = [0; 1]) /\
  exists result, fst (get_gpu_data Scenario.driver_not_loaded) = Return result.
Proof.
  split; [|split].
  - apply (proj1 (proj2 (sampler_all_or_nothing _)) 2%N 1
             (NVMLError NVML_ERROR_GPU_IS_LOST "GPU is lost"));
      try reflexivity; try exact I; try lia.
    intros j Hj. assert (j = 0) as -> by lia. eexists. reflexivity.
  - eexists. split; [reflexivity|].
    destruct (proj1 (sampler_all_or_nothing (Scenario.healthy 2)) _ eq_refl)
      as (n & Hn & Hall).
    injection Hn as <-. reflexivity.
  - apply (proj2 (proj2 (sampler_all_or_nothing Scenario.driver_not_loaded))).
    intros e He. unfold binding_raises in He. cbn in He.
    repeat (destruct He as [He|He]); try destruct He as (? & He);
      injection He as <-; reflexivity.
Defined.

(** ** The sampler: shutdown *)

Section Traces.

Variable P : call -> Prop.

Lemma Forall_snd_bind {A B} (m : M A) (k : A -> M B) :
  Forall P (snd m) -> (forall a, Forall P (snd (k a))) -> Forall P (snd (bind m k)).
Proof.
  intros Hm Hk. rewrite snd_bind. destruct (fst m); [|exact Hm].
  apply Forall_app. auto.
Qed.

Lemma Forall_snd_try_except {A} (body : M A) catches (handler : exn -> M A) :
  Forall P (snd body) -> (forall e, Forall P (snd (handler e))) ->
  Forall P (snd (try_except body catches handler)).
Proof.
  intros Hb Hh. rewrite snd_try_except. destruct (fst body) as [a|e]; [exact Hb|].
  destruct (catches e); [|exact Hb]. apply Forall_app. auto.
Qed.

Lemma Forall_snd_for_append {A} (body : Z -> M A) (idx : list Z) (acc : list A) :
  (forall i, Forall P (snd (body i))) -> Forall P (snd (for_append body idx acc)).
Proof.
  intros Hbody. revert acc. induction idx as [|i rest IH]; intros acc.
  - constructor.
  - cbn [for_append]. apply Forall_snd_bind; auto.
Qed.

End Traces.

Ltac trace_steps :=
  repeat first
    [ apply Forall_snd_bind; [|intros ?]
    | apply Forall_snd_try_except; [|intros ?]
    | apply Forall_snd_for_append; intros ?
    | constructor; try reflexivity ].

Lemma device_sample_no_shutdown (lib : pynvml) (i : Z) :
  Forall (fun c => is_Shutdown c = false) (snd (device_sample lib i)).
Proof. unfold device_sample. trace_steps. Qed.

Lemma sampled_no_shutdown (lib : pynvml) :
  Forall (fun c => is_Shutdown c = false) (snd (sampled lib)).
Proof.
  unfold sampled. trace_steps.
Qed.

Lemma snd_get_gpu_data (lib : pynvml) :
  snd (get_gpu_data lib) = (snd (sampled lib) ++ [Shutdown])%list.
Proof.
  unfold get_gpu_data. rewrite snd_try_finally. fold (sampled lib). f_equal.
  rewrite snd_try_except. cbn [invoke fst snd ret].
  destruct (nvmlShutdown lib) as [u|e]; [reflexivity|].
  now destruct (is_NVMLError e).
Qed.

(** C8. Whatever happens in [get_gpu_data], its last call to the binding is
    [nvmlShutdown], made once; and when [nvmlInit] failed, an [NVMLError] of
    that shutdown is swallowed: the function still returns the error of the
    initialisation. *)
Theorem shutdown_on_every_path (lib : pynvml) :
  (exists before,
     snd (get_gpu_data lib) = (before ++ [Shutdown])%list /\
     Forall (fun c => is_Shutdown c = false) before) /\
  (forall c msg c' msg',
     nvmlInit lib = Raise (NVMLError c msg) ->
     nvmlShutdown lib = Raise (NVMLError c' msg') ->
     get_gpu_data lib = (Return (ErrorDict msg), [Init; Shutdown])).
Proof.
  split.
  - exists (snd (sampled lib)). split;
      [apply snd_get_gpu_data | apply sampled_no_shutdown].
  - intros c msg c' msg' Hinit Hshut.
    unfold get_gpu_data. cbn. now rewrite Hinit, Hshut.
Qed.

Lemma shutdown_on_every_path_witness :
  get_gpu_data Scenario.driver_not_loaded = (Return (ErrorDict "Driver Not Loaded"), [Init; Shutdown]).
Proof.
  apply (proj2 (shutdown_on_every_path Scenario.driver_not_loaded)
           NVML_ERROR_DRIVER_NOT_LOADED "Driver Not Loaded"
           NVML_ERROR_UNINITIALIZED "Uninitialized"); reflexivity.
Defined.

(** ** The sampler: the fan query *)

Ltac query :=
  cbn [invoke eval fst ret Scenario.with_fan_failure
       nvmlInit nvmlDeviceGetCount nvmlDeviceGetHandleByIndex nvmlDeviceGetName
       nvmlDeviceGetTemperature nvmlDeviceGetFanSpeed nvmlDeviceGetMemoryInfo
       nvmlDeviceGetUtilizationRates nvmlDeviceGetPowerUsage
       nvmlDeviceGetEnforcedPowerLimit nvmlSystemGetDriverVersion nvmlShutdown].

Lemma device_sample_with_fan_failure (lib : pynvml) (h : handle) (e : exn) (i : Z)
    (g : gpu_dict) :
  fst (device_sample lib i) = Return g ->
  exists h', nvmlDeviceGetHandleByIndex lib i = Return h' /\ id g = i /\
  fst (device_sample (Scenario.with_fan_failure lib h e) i)
  = if (h' =? h)%N then
      if is_NVMLError_NotSupported e then Return (without_fan g) else Raise e
    else Return g.
Proof.
  intros H. unfold device_sample in H. returned H. injection H as <-.
  cbn [invoke eval fst] in *.
  exists v. split; [assumption|]. split; [reflexivity|].
  unfold device_sample.
  rewrite fst_try_except, fst_bind in Hv2. cbn [invoke fst ret] in Hv2.
  do 3 (rewrite fst_bind; query;
        rewrite ?Hv, ?Hv0, ?Hv1).
  rewrite fst_bind, fst_try_except, fst_bind.
  query.
  destruct (v =? h)%N.
  - destruct (is_NVMLError_NotSupported e); [|reflexivity].
    cbn [ret fst].
    repeat (rewrite fst_bind; query;
        rewrite ?Hv3, ?Hv4, ?Hv5, ?Hv6, ?Hv7, ?Hv8, ?Hv9, ?Hv10, ?Hv11, ?Hv12, ?Hv13).
    reflexivity.
  - rewrite Hv2.
    repeat (rewrite fst_bind; query;
        rewrite ?Hv3, ?Hv4, ?Hv5, ?Hv6, ?Hv7, ?Hv8, ?Hv9, ?Hv10, ?Hv11, ?Hv12, ?Hv13).
    reflexivity.
Qed.


Lemma for_append_fan_unsupported (lib : pynvml) (h : handle) (e : exn)
    (idx : list Z) (gpu_data : list gpu_dict) :
  is_NVMLError_NotSupported e = true ->
  Forall2 (fun i g => fst (device_sample lib i) = Return g) idx gpu_data ->
  Forall2 (fun i g => fst (device_sample (Scenario.with_fan_failure lib h e) i) = Return g)
          idx (map (fan_unsupported_at lib h) gpu_data).
Proof.
  intros He H. induction H as [|i g idx gpu_data Hg _ IH]; [constructor|].
  cbn [map]. constructor; [|exact IH].
  destruct (device_sample_with_fan_failure lib h e i g Hg) as (h' & Hh' & Hid & ->).
  unfold fan_unsupported_at. rewrite Hid, Hh', He. now destruct (h' =? h)%N.
Qed.

Lemma for_append_fan_failure (lib : pynvml) (h : handle) (e : exn)
    (idx : list Z) (gpu_data acc : list gpu_dict) :
  is_NVMLError_NotSupported e = false ->
  Forall2 (fun i g => fst (device_sample lib i) = Return g) idx gpu_data ->
  (exists g, In g gpu_data /\ nvmlDeviceGetHandleByIndex lib (id g) = Return h) ->
  fst (for_append (device_sample (Scenario.with_fan_failure lib h e)) idx acc) = Raise e.
Proof.
  intros He H. revert acc.
  induction H as [|i g idx gpu_data Hg _ IH]; intros acc (g' & Hin & Hh).
  - destruct Hin.
  - cbn [for_append]. rewrite fst_bind.
    destruct (device_sample_with_fan_failure lib h e i g Hg) as (h' & Hh' & Hid & ->).
    rewrite He. destruct (N.eqb_spec h' h) as [->|Hne]; [reflexivity|].
    apply IH. destruct Hin as [<-|Hin].
    + rewrite Hid, Hh' in Hh. congruence.
    + now exists g'.
Qed.

(** C6, as the code has it.  Starting from a subsystem whose sample is a
    list, let the fan query of the device with handle [h] fail with [e]:
    when [e] is the "not supported" error, the sample is the same list with
    the placeholder "N/A" as fan speed of that device only; when [e] is any
    other error and that device is enumerated, the whole sample fails, with
    [{"error": str(e)}] for an [NVMLError]. *)
Theorem not_supported_fan_is_local (lib : pynvml) (h : handle) (e : exn)
    (gpu_data : list gpu_dict) :
  fst (get_gpu_data lib) = Return (GpuList gpu_data) ->
  (is_NVMLError_NotSupported e = true ->
   fst (get_gpu_data (Scenario.with_fan_failure lib h e))
   = Return (GpuList (map (fan_unsupported_at lib h) gpu_data))) /\
  (is_NVMLError_NotSupported e = false ->
   (exists g, In g gpu_data /\ nvmlDeviceGetHandleByIndex lib (id g) = Return h) ->
   fst (get_gpu_data (Scenario.with_fan_failure lib h e))
   = if is_NVMLError e then Return (ErrorDict (str_exn e)) else Raise e).
Proof.
  intros H. apply get_gpu_data_quiet in H as (Hquiet & H).
  apply sampled_list in H as (n & Hinit & Hcount & Hall).
  assert (Hquiet' : shutdown_quiet (Scenario.with_fan_failure lib h e)) by exact Hquiet.
  rewrite (quiet_get_gpu_data _ Hquiet'). split.
  - intros He. apply (sampled_all _ n); [exact Hinit | exact Hcount |].
    now apply for_append_fan_unsupported.
  - intros He Hdev. unfold sampled.
    rewrite fst_try_except, !fst_bind. query. rewrite Hinit, Hcount, fst_bind.
    now rewrite (for_append_fan_failure lib h e _ gpu_data [] He Hall Hdev).
Qed.

Lemma not_supported_fan_is_local_witness :
  (exists g0 g1,
     fst (get_gpu_data (Scenario.with_fan_failure (Scenario.healthy 2) 100%N
                          (NVMLError NVML_ERROR_NOT_SUPPORTED "Not Supported")))
     = Return (GpuList [g0; g1]) /\
     fan_speed g0 = FanStr "N/A" /\ fan_speed g1 = FanInt 30) /\
  fst (get_gpu_data (Scenario.with_fan_failure (Scenario.healthy 2) 100%N
                       (NVMLError NVML_ERROR_UNKNOWN "Unknown Error")))
  = Return (ErrorDict "Unknown Error").
Proof.
  split.
  - eexists. eexists. split.
    + apply (proj1 (not_supported_fan_is_local (Scenario.healthy 2) 100%N
                      (NVMLError NVML_ERROR_NOT_SUPPORTED "Not Supported") _ eq_refl)).
      reflexivity.
    + split; reflexivity.
  - apply (proj2 (not_supported_fan_is_local (Scenario.healthy 2) 100%N
                    (NVMLError NVML_ERROR_UNKNOWN "Unknown Error") _ eq_refl)).
    + reflexivity.
    + eexists. split; [left; reflexivity | reflexivity].
Defined.

(** The claim of C6 fails: an "unknown error" of the fan query of the first
    of two devices makes the whole sample an error. *)
Lemma unknown_fan_error_fails_sample : ~ any_fan_failure_is_local.
Proof.
  intros claim.
  specialize (claim (Scenario.healthy 2) 100%N NVML_ERROR_UNKNOWN "Unknown Error" _ eq_refl).
  discriminate claim.
Qed.

(** ** The sampler: the range of the percentages *)






(** ** The loop driver *)




(** * Further properties *)

(** ** The sampler: which calls are made *)

Ltac traced :=
  cbn [invoke eval fst snd ret app
       nvmlInit nvmlDeviceGetCount nvmlDeviceGetHandleByIndex nvmlDeviceGetName
       nvmlDeviceGetTemperature nvmlDeviceGetFanSpeed nvmlDeviceGetMemoryInfo
       nvmlDeviceGetUtilizationRates nvmlDeviceGetPowerUsage
       nvmlDeviceGetEnforcedPowerLimit nvmlSystemGetDriverVersion nvmlShutdown].

Lemma snd_fan_query (lib : pynvml) (h : handle) :
  snd (try_except
         (v <- invoke (DeviceGetFanSpeed h) (nvmlDeviceGetFanSpeed lib h) ;;
          ret (FanInt (Z.of_N v)))
         is_NVMLError_NotSupported (fun _ => ret (FanStr "N/A")))
  = [DeviceGetFanSpeed h].
Proof.
  rewrite snd_try_except, fst_bind, snd_bind. traced.
  destruct (nvmlDeviceGetFanSpeed lib h) as [v|e]; [reflexivity|].
  now destruct (is_NVMLError_NotSupported e).
Qed.

Lemma snd_device_sample (lib : pynvml) (i : Z) (g : gpu_dict) :
  fst (device_sample lib i) = Return g ->
  snd (device_sample lib i) = device_calls lib i.
Proof.
  intros H. unfold device_sample in H. returned H. clear H.
  cbn [invoke eval fst] in *.
  unfold device_sample, device_calls. rewrite Hv.
  do 3 (rewrite snd_bind; traced; rewrite ?Hv, ?Hv0, ?Hv1; f_equal).
  rewrite snd_bind, Hv2, snd_fan_query. cbn [app]. f_equal.
  repeat (rewrite snd_bind; traced;
          rewrite ?Hv3, ?Hv4, ?Hv5, ?Hv6, ?Hv7, ?Hv8, ?Hv9, ?Hv10, ?Hv11, ?Hv12, ?Hv13;
          cbn [app]; try f_equal).
Qed.

Lemma snd_for_append_all {A} (body : Z -> M A) (idx : list Z) (acc ds : list A) :
  Forall2 (fun i d => fst (body i) = Return d) idx ds ->
  snd (for_append body idx acc) = flat_map (fun i => snd (body i)) idx.
Proof.
  intros H. revert acc. induction H as [|i d idx ds Hd _ IH]; intros acc.
  - reflexivity.
  - cbn [for_append flat_map]. rewrite snd_bind, Hd. f_equal. apply IH.
Qed.

Lemma snd_for_append_Raise {A} (body : Z -> M A) (before after : list Z) (k : Z)
    (acc : list A) (e : exn) :
  (forall j, In j before -> exists d, fst (body j) = Return d) ->
  fst (body k) = Raise e ->
  snd (for_append body (before ++ k :: after) acc)
  = (flat_map (fun i => snd (body i)) before ++ snd (body k))%list.
Proof.
  revert acc. induction before as [|j rest IH]; intros acc Hbefore Hk.
  - cbn [app for_append flat_map]. now rewrite snd_bind, Hk.
  - cbn [app for_append flat_map]. rewrite snd_bind.
    destruct (Hbefore j (or_introl eq_refl)) as (d & ->).
    rewrite <- app_assoc. f_equal.
    apply IH; [|exact Hk]. intros j' Hj'. apply Hbefore. now right.
Qed.

Lemma flat_map_device_calls (lib : pynvml) (idx : list Z) :
  (forall j, In j idx -> exists g, fst (device_sample lib j) = Return g) ->
  flat_map (fun i => snd (device_sample lib i)) idx = flat_map (device_calls lib) idx.
Proof.
  induction idx as [|i rest IH]; intros H; [reflexivity|].
  cbn [flat_map]. destruct (H i (or_introl eq_refl)) as (g & Hg).
  rewrite (snd_device_sample lib i g Hg). f_equal.
  apply IH. intros j Hj. apply H. now right.
Qed.

Lemma Forall2_returns {X Y} (f : X -> outcome Y) (xs : list X) (ys : list Y) :
  Forall2 (fun x y => f x = Return y) xs ys ->
  forall x, In x xs -> exists y, f x = Return y.
Proof.
  intros H. induction H as [|x y xs ys Hxy _ IH]; intros x' Hin; [destruct Hin|].
  destruct Hin as [<-|Hin]; [now exists y | now apply IH].
Qed.

Lemma snd_sampled_after_count (lib : pynvml) (n : N) :
  nvmlInit lib = Return tt -> nvmlDeviceGetCount lib = Return n ->
  snd (sampled lib)
  = Init :: DeviceGetCount ::
      snd (for_append (device_sample lib) (range (Z.of_N n)) []).
Proof.
  intros Hinit Hcount. unfold sampled.
  rewrite snd_try_except, !fst_bind, !snd_bind. traced. rewrite Hinit. traced.
  rewrite Hcount. cbn iota. rewrite fst_bind, snd_bind. traced.
  destruct (fst (for_append _ _ _)) as [l|e]; traced.
  - now rewrite app_nil_r.
  - destruct (is_NVMLError e); traced; now rewrite ?app_nil_r.
Qed.

(** X1.  When the sampler returns a list, the calls it made are exactly:
    [nvmlInit], [nvmlDeviceGetCount], then for each device in ascending
    index order its handle, name, temperature, fan speed, memory,
    utilisation, power usage, power limit and the driver version, and
    last [nvmlShutdown]; nine calls per device, whether or not its fan is
    supported. *)
Theorem calls_of_a_full_sample (lib : pynvml) (gpu_data : list gpu_dict) :
  fst (get_gpu_data lib) = Return (GpuList gpu_data) ->
  snd (get_gpu_data lib)
  = (Init :: DeviceGetCount ::
       flat_map (device_calls lib) (range (Z.of_nat (List.length gpu_data))) ++
       [Shutdown])%list /\
  List.length (snd (get_gpu_data lib)) = (9 * List.length gpu_data + 3)%nat.
Proof.
  intros H. apply get_gpu_data_quiet in H as (_ & H).
  apply sampled_list in H as (n & Hinit & Hcount & Hall).
  assert (Hlen : List.length gpu_data = N.to_nat n).
  { apply Forall2_length in Hall. unfold range in Hall.
    rewrite length_map, length_seq in Hall. lia. }
  assert (Htrace : snd (get_gpu_data lib)
                   = (Init :: DeviceGetCount ::
                        flat_map (device_calls lib) (range (Z.of_N n)) ++ [Shutdown])%list).
  { rewrite snd_get_gpu_data, (snd_sampled_after_count lib n Hinit Hcount).
    rewrite (snd_for_append_all _ _ [] _ Hall).
    rewrite flat_map_device_calls; [reflexivity|].
    exact (Forall2_returns _ _ _ Hall). }
  replace (Z.of_nat (List.length gpu_data)) with (Z.of_N n) by lia.
  split; [exact Htrace|]. rewrite Htrace. cbn [List.length]. rewrite length_app.
  cbn [List.length]. rewrite Hlen.
  assert (Hflat : forall idx,
             (forall j, In j idx -> exists g, fst (device_sample lib j) = Return g) ->
             List.length (flat_map (device_calls lib) idx) = (9 * List.length idx)%nat).
  { induction idx as [|i rest IH]; intros Hidx; [reflexivity|].
    cbn [flat_map]. rewrite length_app, IH by (intros j Hj; apply Hidx; now right).
    destruct (Hidx i (or_introl eq_refl)) as (g & Hg).
    unfold device_sample in Hg. apply bind_Return_inv in Hg as (h & Hh & _).
    cbn [invoke fst] in Hh. unfold device_calls. rewrite Hh. cbn [List.length]. lia. }
  rewrite Hflat by exact (Forall2_returns _ _ _ Hall).
  unfold range. rewrite length_map, length_seq. lia.
Qed.

Lemma calls_of_a_full_sample_witness :
  snd (get_gpu_data
         (Scenario.with_fan_failure (Scenario.healthy 2) 101%N
            (NVMLError NVML_ERROR_NOT_SUPPORTED "Not Supported")))
  = [ Init; DeviceGetCount;
      DeviceGetHandleByIndex 0; DeviceGetName 100%N; DeviceGetTemperature 100%N;
      DeviceGetFanSpeed 100%N; DeviceGetMemoryInfo 100%N;
      DeviceGetUtilizationRates 100%N; DeviceGetPowerUsage 100%N;
      DeviceGetEnforcedPowerLimit 100%N; SystemGetDriverVersion;
      DeviceGetHandleByIndex 1; DeviceGetName 101%N; DeviceGetTemperature 101%N;
      DeviceGetFanSpeed 101%N; DeviceGetMemoryInfo 101%N;
      DeviceGetUtilizationRates 101%N; DeviceGetPowerUsage 101%N;
      DeviceGetEnforcedPowerLimit 101%N; SystemGetDriverVersion;
      Shutdown ].
Proof.
  exact (proj1 (calls_of_a_full_sample
                  (Scenario.with_fan_failure (Scenario.healthy 2) 101%N
                     (NVMLError NVML_ERROR_NOT_SUPPORTED "Not Supported"))
                  _ eq_refl)).
Defined.

(** X2.  [nvmlInit] is the first call of every sample, and when it fails
    nothing is queried: the only other call is [nvmlShutdown].  The error of
    the initialisation becomes [{"error": str(e)}] when it is an
    [NVMLError] and is raised again otherwise. *)
Theorem failed_init_queries_nothing (lib : pynvml) :
  (exists rest, snd (get_gpu_data lib) = Init :: rest) /\
  (forall e,
     nvmlInit lib = Raise e ->
     snd (get_gpu_data lib) = [Init; Shutdown] /\
     (shutdown_quiet lib ->
      fst (get_gpu_data lib)
      = if is_NVMLError e then Return (ErrorDict (str_exn e)) else Raise e)).
Proof.
  split.
  - rewrite snd_get_gpu_data. unfold sampled.
    rewrite snd_try_except, fst_bind, snd_bind. traced.
    destruct (nvmlInit lib) as [u|e]; traced.
    + match goal with |- context [snd ?m] => destruct (fst m) as [r|e] end;
        [|destruct (is_NVMLError e)]; eexists; reflexivity.
    + destruct (is_NVMLError e); eexists; reflexivity.
  - intros e Hinit. split.
    + rewrite snd_get_gpu_data. unfold sampled.
      rewrite snd_try_except, fst_bind, snd_bind. traced. rewrite Hinit.
      now destruct (is_NVMLError e).
    + intros Hquiet. rewrite (quiet_get_gpu_data _ Hquiet). unfold sampled.
      rewrite fst_try_except, fst_bind. traced. rewrite Hinit.
      now destruct (is_NVMLError e).
Qed.

Lemma failed_init_queries_nothing_witness :
  get_gpu_data Scenario.driver_not_loaded
  = (Return (ErrorDict "Driver Not Loaded"), [Init; Shutdown]).
Proof.
  destruct (proj2 (failed_init_queries_nothing Scenario.driver_not_loaded)
              (NVMLError NVML_ERROR_DRIVER_NOT_LOADED "Driver Not Loaded") eq_refl)
    as (Htrace & Hvalue).
  specialize (Hvalue eq_refl).
  rewrite (surjective_pairing (get_gpu_data Scenario.driver_not_loaded)).
  now rewrite Htrace, Hvalue.
Defined.

(** X3.  A subsystem that enumerates zero devices is not an error: the
    sampler makes three calls and returns the empty list, and the renderer
    turns it into a table frame with no row and "N/A" as driver version. *)
Theorem zero_devices_is_an_empty_table (lib : pynvml) (now : datetime) :
  nvmlInit lib = Return tt -> nvmlDeviceGetCount lib = Return 0%N ->
  shutdown_quiet lib ->
  get_gpu_data lib = (Return (GpuList []), [Init; DeviceGetCount; Shutdown]) /\
  (forall p, frame {| Driver.lib := lib; Driver.now := now; show := Return tt |} = Return p ->
             is_table_frame p = true /\ panel_rows p = Some [] /\
             Panel.subtitle p
             = Some ("[dim]NVIDIA Driver: N/A | Last updated: " ++ strftime now ++ "[/dim]")).
Proof.
  intros Hinit Hcount Hquiet.
  assert (Hvalue : fst (get_gpu_data lib) = Return (GpuList [])).
  { rewrite (quiet_get_gpu_data _ Hquiet).
    apply (sampled_all _ 0); [exact Hinit | exact Hcount | constructor]. }
  split.
  - rewrite (surjective_pairing (get_gpu_data lib)), Hvalue. f_equal.
    rewrite snd_get_gpu_data, (snd_sampled_after_count lib 0 Hinit Hcount). reflexivity.
  - intros p. unfold frame. cbn [Driver.lib Driver.now]. rewrite Hvalue.
    intros [= <-]. split; [reflexivity|]. split; reflexivity.
Qed.

Lemma zero_devices_is_an_empty_table_witness :
  get_gpu_data (Scenario.healthy 0) = (Return (GpuList []), [Init; DeviceGetCount; Shutdown]).
Proof.
  apply (zero_devices_is_an_empty_table (Scenario.healthy 0) Scenario.noon);
    [reflexivity | reflexivity | exact I].
Defined.

Lemma device_sample_about_index (lib : pynvml) (i : Z) :
  Forall (about_index i) (snd (device_sample lib i)).
Proof.
  unfold device_sample.
  repeat first
    [ apply Forall_snd_bind; [|intros ?]
    | apply Forall_snd_try_except; [|intros ?]
    | constructor; try exact I; try reflexivity ].
Qed.

Lemma device_calls_about_index (lib : pynvml) (i : Z) :
  Forall (about_index i) (device_calls lib i).
Proof.
  unfold device_calls. destruct (nvmlDeviceGetHandleByIndex lib i);
    repeat (constructor; try exact I; try reflexivity).
Qed.

(** X4.  A query that fails for device [k] ends the enumeration: the calls
    are those of the devices before [k], the calls of device [k] up to the
    failing one and [nvmlShutdown]; no device after [k] is asked for. *)
Theorem failure_ends_the_enumeration (lib : pynvml) (n : N) (k : Z) (e : exn) :
  nvmlInit lib = Return tt -> nvmlDeviceGetCount lib = Return n ->
  0 <= k < Z.of_N n ->
  (forall j, 0 <= j < k -> exists g, fst (device_sample lib j) = Return g) ->
  fst (device_sample lib k) = Raise e ->
  snd (get_gpu_data lib)
  = (Init :: DeviceGetCount ::
       flat_map (device_calls lib) (range k) ++ snd (device_sample lib k) ++
       [Shutdown])%list /\
  (forall j, k < j -> ~ In (DeviceGetHandleByIndex j) (snd (get_gpu_data lib))).
Proof.
  intros Hinit Hcount Hk Hbefore Hfail.
  assert (Hbefore' : forall j, In j (range k) ->
                               exists g, fst (device_sample lib j) = Return g).
  { intros j Hj. apply Hbefore. now apply In_range. }
  assert (Htrace : snd (get_gpu_data lib)
                   = (Init :: DeviceGetCount ::
                        flat_map (device_calls lib) (range k) ++
                        snd (device_sample lib k) ++ [Shutdown])%list).
  { rewrite snd_get_gpu_data, (snd_sampled_after_count lib n Hinit Hcount).
    rewrite (range_split _ k Hk).
    rewrite (snd_for_append_Raise _ _ _ k [] e Hbefore' Hfail).
    rewrite (flat_map_device_calls lib _ Hbefore').
    cbn [app]. now rewrite <- app_assoc. }
  split; [exact Htrace|].
  intros j Hj Hin. rewrite Htrace in Hin.
  destruct Hin as [Hin|[Hin|Hin]]; try discriminate Hin.
  apply in_app_or in Hin as [Hin|Hin].
  - apply in_flat_map in Hin as (i & Hi & Hin). apply In_range in Hi.
    pose proof (device_calls_about_index lib i) as Hall.
    rewrite Forall_forall in Hall. specialize (Hall _ Hin). cbn in Hall. lia.
  - apply in_app_or in Hin as [Hin|[Hin|[]]]; [|discriminate Hin].
    pose proof (device_sample_about_index lib k) as Hall.
    rewrite Forall_forall in Hall. specialize (Hall _ Hin). cbn in Hall. lia.
Qed.

Lemma failure_ends_the_enumeration_witness :
  ~ In (DeviceGetHandleByIndex 2)
       (snd (get_gpu_data
               (Scenario.with_temperature_failure (Scenario.healthy 3) 101%N
                  (NVMLError NVML_ERROR_GPU_IS_LOST "GPU is lost")))).
Proof.
  apply (proj2 (failure_ends_the_enumeration
                  (Scenario.with_temperature_failure (Scenario.healthy 3) 101%N
                     (NVMLError NVML_ERROR_GPU_IS_LOST "GPU is lost"))
                  3%N 1 (NVMLError NVML_ERROR_GPU_IS_LOST "GPU is lost")
                  eq_refl eq_refl (ltac:(lia))
                  (fun j Hj => ltac:(assert (j = 0) as -> by lia; eexists; reflexivity))
                  eq_refl)).
  lia.
Defined.

(** X5.  An exception of [nvmlShutdown] that is not an [NVMLError] is not
    swallowed: it replaces whatever the sample was, a complete list
    included. *)
Theorem unexpected_shutdown_error_replaces_the_sample (lib : pynvml) (e : exn) :
  nvmlShutdown lib = Raise e -> is_NVMLError e = false ->
  fst (get_gpu_data lib) = Raise e /\
  exists before, snd (get_gpu_data lib) = (before ++ [Shutdown])%list.
Proof.
  intros Hshut He. split.
  - now rewrite fst_get_gpu_data, Hshut, He.
  - exists (snd (sampled lib)). apply snd_get_gpu_data.
Qed.

Lemma unexpected_shutdown_error_replaces_the_sample_witness :
  fst (get_gpu_data (with_shutdown_failure (Scenario.healthy 2) (OtherException "closed")))
  = Raise (OtherException "closed").
Proof.
  apply (unexpected_shutdown_error_replaces_the_sample
           (with_shutdown_failure (Scenario.healthy 2) (OtherException "closed"))
           (OtherException "closed")); reflexivity.
Defined.

(** ** The sampler: what a sample holds *)

(** X6.  Every field of a returned sample comes from the queries on the
    handle of its own index: the id is the index, name, temperature and
    utilisation are the readings, the memory figures are the byte counts
    divided by 1024^2, the power figures the milliwatts divided by 1000.0,
    and the fan speed is the reading or, when the query raised, the
    placeholder "N/A". *)
Theorem sample_fields_are_the_readings (lib : pynvml) (i : Z) (g : gpu_dict) :
  fst (device_sample lib i) = Return g ->
  exists h t mi u w l,
    nvmlDeviceGetHandleByIndex lib i = Return h /\
    id g = i /\
    nvmlDeviceGetName lib h = Return (name g) /\
    nvmlDeviceGetTemperature lib h = Return t /\ temp g = Z.of_N t /\
    fan_speed g = match nvmlDeviceGetFanSpeed lib h with
                  | Return v => FanInt (Z.of_N v)
                  | Raise _ => FanStr "N/A"
                  end /\
    nvmlDeviceGetMemoryInfo lib h = Return mi /\
    mem_used g = SFdiv prec emax (float_of_int (Z.of_N (used mi))) (float_of_int 1048576) /\
    mem_total g = SFdiv prec emax (float_of_int (Z.of_N (total mi))) (float_of_int 1048576) /\
    nvmlDeviceGetUtilizationRates lib h = Return u /\ gpu_util g = Z.of_N (gpu u) /\
    nvmlDeviceGetPowerUsage lib h = Return w /\
    power_usage g = SFdiv prec emax (float_of_int (Z.of_N w)) (float_of_int 1000) /\
    nvmlDeviceGetEnforcedPowerLimit lib h = Return l /\
    power_limit g = SFdiv prec emax (float_of_int (Z.of_N l)) (float_of_int 1000) /\
    nvmlSystemGetDriverVersion lib = Return (driver_version g).
Proof.
  intros H. unfold device_sample in H. returned H. injection H as <-.
  cbn [invoke eval fst] in *.
  rewrite int_truediv_MiB in Hv4, Hv5. rewrite float_truediv_1000 in Hv9, Hv11.
  injection Hv4 as <-. injection Hv5 as <-. injection Hv9 as <-. injection Hv11 as <-.
  rewrite fst_try_except, fst_bind in Hv2. cbn [invoke fst ret] in Hv2.
  exists v, v1, v3, v7, v8, v10.
  cbn [id name temp fan_speed mem_used mem_total gpu_util power_usage power_limit
       driver_version].
  repeat split; try assumption.
  destruct (nvmlDeviceGetFanSpeed lib v) as [n|e]; [congruence|].
  destruct (is_NVMLError_NotSupported e); congruence.
Qed.

Lemma sample_fields_are_the_readings_witness :
  exists g,
    fst (device_sample
           (Scenario.with_fan_failure (Scenario.healthy 1) 100%N
              (NVMLError NVML_ERROR_NOT_SUPPORTED "Not Supported")) 0) = Return g /\
    fan_speed g = FanStr "N/A" /\ temp g = 85 /\ gpu_util g = 42.
Proof.
  eexists. split; [reflexivity|].
  destruct (sample_fields_are_the_readings
              (Scenario.with_fan_failure (Scenario.healthy 1) 100%N
                 (NVMLError NVML_ERROR_NOT_SUPPORTED "Not Supported")) 0 _ eq_refl)
    as (h & t & mi & u & w & l & Hh & _ & _ & Ht & Htemp & Hfan & _ & _ & _ & Hu & Hutil & _).
  injection Hh as <-. injection Ht as <-. injection Hu as <-.
  split; [exact Hfan|]. split; [exact Htemp | exact Hutil].
Defined.

(** ** The sampler and the renderer together *)



(** ** The renderer: layout *)



(** X9.  The clock reaches the frame through the footer only: two frames
    rendered from the same sample at different times have the same
    content, title and border, and an error panel, which has no footer, is
    the same at any time. *)
Theorem clock_only_in_the_footer (now later : datetime) (gpu_data : sample_result) :
  Panel.content (generate_table now gpu_data)
  = Panel.content (generate_table later gpu_data) /\
  Panel.title (generate_table now gpu_data) = Panel.title (generate_table later gpu_data) /\
  Panel.border_style (generate_table now gpu_data)
  = Panel.border_style (generate_table later gpu_data) /\
  (is_error_panel (generate_table now gpu_data) = true ->
   Panel.subtitle (generate_table now gpu_data) = None /\
   generate_table now gpu_data = generate_table later gpu_data) /\
  (strftime now = strftime later ->
   generate_table now gpu_data = generate_table later gpu_data).
Proof.
  destruct gpu_data as [l|msg].
  - repeat split; try reflexivity; try discriminate.
    intros Hclock. unfold generate_table. now rewrite Hclock.
  - repeat split; reflexivity.
Qed.

Lemma clock_only_in_the_footer_witness :
  generate_table Scenario.noon (ErrorDict "Driver Not Loaded")
  = generate_table
      {| year := 2025; month := 1; day := 1; hour := 0; minute := 0; second := 0 |}
      (ErrorDict "Driver Not Loaded").
Proof.
  apply (proj1 (proj2 (proj2 (proj2
           (clock_only_in_the_footer Scenario.noon
              {| year := 2025; month := 1; day := 1; hour := 0; minute := 0; second := 0 |}
              (ErrorDict "Driver Not Loaded")))))).
  reflexivity.
Defined.

(** ** The loop driver: which frames are shown *)















(** X13.  An initialisation that fails with an [NVMLError] ends up on the
    screen, not in an exception: the pass gives an error panel whose text
    is the heading followed by the message of the error, and no row. *)
Theorem init_error_is_shown (p : pass) (code : nvml_return) (msg : string) :
  nvmlInit (lib p) = Raise (NVMLError code msg) -> shutdown_quiet (lib p) ->
  exists panel,
    frame p = Return panel /\ is_error_panel panel = true /\
    panel_text panel = Some ("NVIDIA Driver/SMI Error:" ++ newline ++ msg) /\
    panel_rows panel = None.
Proof.
  intros Hinit Hquiet. unfold frame.
  rewrite (quiet_get_gpu_data _ Hquiet). unfold sampled.
  rewrite fst_try_except, fst_bind. cbn [invoke fst]. rewrite Hinit.
  cbn [is_NVMLError ret fst str_exn].
  eexists. split; [reflexivity|]. repeat split.
Qed.

Lemma init_error_is_shown_witness :
  exists panel,
    frame (Scenario.calm Scenario.driver_not_loaded) = Return panel /\
    panel_text panel = Some ("NVIDIA Driver/SMI Error:" ++ newline ++ "Driver Not Loaded").
Proof.
  destruct (init_error_is_shown (Scenario.calm Scenario.driver_not_loaded)
              NVML_ERROR_DRIVER_NOT_LOADED "Driver Not Loaded" eq_refl eq_refl)
    as (panel & Hframe & _ & Htext & _).
  exists panel. split; [exact Hframe | exact Htext].
Defined.

(** ** The whole script *)


